(** * django-moreviews: [moreviews/editviews.py]

    A shallow embedding of the bound-object form factories and the
    class-based views built on them, with the properties of the
    specification stated over it.

    Python code that only composes calls into Django is modelled in a small
    state-and-exception monad.  Django itself (forms, ORM, generic views) is
    not part of the package: its operations are parameters, acting on a host
    state the package code cannot inspect.  Calls whose order or number the
    specification talks about are recorded in a trace that only the package
    code's call sites extend. *)

From stdpp Require Import gmap strings list fin_maps.
From Stdlib Require Import ZArith Ascii String.

Local Open Scope string_scope.
Local Open Scope list_scope.

(** ** Exceptions and the monad *)

Inductive exn :=
| ImproperlyConfigured
| AttributeError
| TypeError
| KeyError
| HostError (code : nat).   (* anything the framework itself raises *)

Inductive result (A : Type) :=
| Ok (a : A)
| Raise (e : exn).

Arguments Ok {A} a.
Arguments Raise {A} e.

(** A computation over a mutable state [St]: an exception keeps the state
    changes made before it was raised, as in Python. *)
Definition M (St A : Type) : Type := St -> result A * St.

Definition ret {St A} (a : A) : M St A := fun s => (Ok a, s).

Definition raise {St A} (e : exn) : M St A := fun s => (Raise e, s).

Definition bind {St A B} (c : M St A) (k : A -> M St B) : M St B :=
  fun s =>
    match c s with
    | (Ok a, s') => k a s'
    | (Raise e, s') => (Raise e, s')
    end.

Definition get {St} : M St St := fun s => (Ok s, s).

Definition modify {St} (f : St -> St) : M St unit := fun s => (Ok tt, f s).

#[export] Instance exn_eq_dec : EqDecision exn.
Proof. solve_decision. Defined.

(** [try: c except e: h] *)
Definition try_except {St A} (c : M St A) (e : exn) (h : M St A) : M St A :=
  fun s =>
    match c s with
    | (Raise e', s') => if decide (e' = e) then h s' else (Raise e', s')
    | r => r
    end.

Declare Scope py_scope.
Delimit Scope py_scope with py.
Notation "x <- c ;; k" := (bind c (fun x => k))
  (at level 100, c at next level, right associativity) : py_scope.
Notation "c ;;; k" := (bind c (fun _ => k))
  (at level 100, right associativity) : py_scope.
Local Open Scope py_scope.

Fixpoint mapM {St A B} (f : A -> M St B) (l : list A) : M St (list B) :=
  match l with
  | [] => ret []
  | x :: l' => y <- f x ;; ys <- mapM f l' ;; ret (y :: ys)
  end.

(** [n] runs of [c], one after the other. *)
Fixpoint times {St A} (n : nat) (c : M St A) : M St unit :=
  match n with
  | O => ret tt
  | S n' => c ;;; times n' c
  end.

(** ** Worlds

    The package code runs over a world of three parts: the trace of the
    calls it makes, the Python lists it shares with its callers (by
    reference), and the host state [S].  Framework and user callbacks are
    computations over [S] alone; [lift] runs one, [call] records the call
    first. *)

Definition loc := nat.

Record world (Ev S : Type) := World {
  trace : list Ev;
  heap : gmap loc (list string);
  store : S
}.

Arguments World {Ev S} trace heap store.
Arguments trace {Ev S} w.
Arguments heap {Ev S} w.
Arguments store {Ev S} w.

Definition lift {Ev S A} (c : M S A) : M (world Ev S) A :=
  fun w => let (r, s') := c (store w) in (r, World (trace w) (heap w) s').

Definition log {Ev S} (ev : Ev) : M (world Ev S) unit :=
  modify (fun w => World (trace w ++ [ev]) (heap w) (store w)).

Definition call {Ev S A} (ev : Ev) (c : M S A) : M (world Ev S) A :=
  log ev ;;; lift c.

(** ** Models and their instances

    Of a model class the package reads [_meta.app_label],
    [_meta.object_name] and [_meta.fields]; of a field, its [name] and
    whether it is a [models.ForeignKey]. *)

Record field := Field { field_name : string; is_foreign_key : bool }.

Record model_class := Model {
  app_label : string;
  object_name : string;
  fields : list field
}.

(** A model instance carries its primary key (absent until first saved) and
    its field attributes.  [setattr] is Python's attribute assignment on a
    field attribute. *)
Record instance (Value : Type) := Instance {
  inst_model : model_class;
  inst_pk : option Z;
  inst_attrs : gmap string Value
}.

Arguments Instance {Value} inst_model inst_pk inst_attrs.
Arguments inst_model {Value} i.
Arguments inst_pk {Value} i.
Arguments inst_attrs {Value} i.

Definition setattr {Value} (obj : instance Value) (field : string) (v : Value)
  : instance Value :=
  Instance (inst_model obj) (inst_pk obj) (<[field := v]> (inst_attrs obj)).

Definition with_pk {Value} (obj : instance Value) (pk : Z) : instance Value :=
  Instance (inst_model obj) (Some pk) (inst_attrs obj).

(** The value a form or formset is bound to: a plain value, or a callable
    of no arguments ([callable(initial)]). *)
Inductive bound_value (S Value : Type) :=
| Fixed (v : Value)
| Producer (p : M S Value).

Arguments Fixed {S Value} v.
Arguments Producer {S Value} p.

(** [Meta.exclude] of a form class as [getattr] sees it. *)
Inductive exclude_attr :=
| ExMissing
| ExNone
| ExSeq (names : list string).

(** A form class handed to the factories.  Its constructor and its [save]
    belong to the framework or the user. *)
Record base_form (S Value Args FormState : Type) := BaseForm {
  bf_meta_model : option model_class;
  bf_meta_exclude : exclude_attr;
  bf_init : Args -> M S FormState;
  bf_save : FormState -> bool -> M S (instance Value)
}.

Arguments BaseForm {S Value Args FormState}.
Arguments bf_meta_model {S Value Args FormState} b.
Arguments bf_meta_exclude {S Value Args FormState} b.
Arguments bf_init {S Value Args FormState} b.
Arguments bf_save {S Value Args FormState} b.

(** What the package uses of Django: [Model.save], which writes the row and
    leaves the instance with a primary key (it returns that key here), and
    [forms.ModelForm], the base of the default form class. *)
Class Host (S Value Args FormState : Type) := {
  model_save : instance Value -> M S Z;
  modelform_init : Args -> M S FormState;
  modelform_save : model_class -> FormState -> bool -> M S (instance Value)
}.

(** An attribute of a Python object: absent ([hasattr] is false), [None],
    or an object. *)
Inductive attr (A : Type) :=
| Missing
| PyNone
| Has (a : A).

Arguments Missing {A}.
Arguments PyNone {A}.
Arguments Has {A} a.

(** Values found in the keyword dictionaries the package passes around.
    A Python list is held by reference into the heap of the world. *)
Inductive pyval (Form : Type) :=
| PNone
| PBool (b : bool)
| PInt (z : Z)
| PStr (s : string)
| PTuple (names : list string)
| PListRef (l : loc)
| PModel (m : model_class)
| PForm (f : Form)
| PObject (id : nat).   (* any other object; not iterable *)

Arguments PNone {Form}.
Arguments PBool {Form} b.
Arguments PInt {Form} z.
Arguments PStr {Form} s.
Arguments PTuple {Form} names.
Arguments PListRef {Form} l.
Arguments PModel {Form} m.
Arguments PForm {Form} f.
Arguments PObject {Form} id.

(** [a in s] on two strings. *)
Definition is_substring (a s : string) : bool :=
  match String.index 0 a s with Some _ => true | None => false end.

(** [names.count(field)] *)
Definition occurrences (field : string) (names : list string) : nat :=
  count_occ String.string_dec names field.

(** [if field not in names: names.append(field)], as it leaves the list. *)
Definition excluded (field : string) (names : list string) : list string :=
  if bool_decide (field ∈ names) then names else names ++ [field].

(** [str.lower] on ASCII. *)
Definition lower_char (c : ascii) : ascii :=
  let n := nat_of_ascii c in
  if (65 <=? n)%nat && (n <=? 90)%nat then ascii_of_nat (n + 32) else c.

Fixpoint lower (s : string) : string :=
  match s with
  | EmptyString => EmptyString
  | String c s' => String (lower_char c) (lower s')
  end.

(** ** [bound_object_form] *)

Module BoundForm.

Inductive event := EvProducer.

Section Factory.
Context {S Value Args FormState : Type} `{!Host S Value Args FormState}.

Abbreviation W := (world event S).

(** The class [_form] with the variables its body closes over. *)
Record bound_form := BoundFormClass {
  superclass : base_form S Value Args FormState;
  meta_model : model_class;
  meta_exclude : list string;
  closure_field : string;
  closure_initial : bound_value S Value
}.

(** [class form(forms.ModelForm): class Meta: model = _model] *)
Definition default_form (_model : model_class) : base_form S Value Args FormState :=
  BaseForm (Some _model) ExMissing modelform_init (modelform_save _model).

Definition bound_object_form (_model : model_class) (field : string)
    (initial : bound_value S Value)
    (form : option (base_form S Value Args FormState)) : M W bound_form :=
  let form := match form with None => default_form _model | Some f => f end in
  excludes <-
    match bf_meta_exclude form with
    | ExMissing => ret [field]
    | ExNone => raise TypeError
    | ExSeq names =>
        if bool_decide (field ∈ names) then ret names
        else ret (names ++ [field])
    end ;;
  match bf_meta_model form with
  | None => raise AttributeError
  | Some m => ret (BoundFormClass form m excludes field initial)
  end.

(** [initial()] when [initial] is callable, [initial] otherwise. *)
Definition resolve (initial : bound_value S Value) : M W Value :=
  match initial with
  | Producer p => call EvProducer p
  | Fixed v => ret v
  end.

(** Instantiating [_form]: the inherited constructor. *)
Definition construct (F : bound_form) (args : Args) : M W FormState :=
  lift (bf_init (superclass F) args).

(** [_form.save(self, commit=True)] *)
Definition save (F : bound_form) (self : FormState) (commit : bool)
  : M W (instance Value) :=
  obj <- lift (bf_save (superclass F) self false) ;;
  v <- resolve (closure_initial F) ;;
  let obj := setattr obj (closure_field F) v in
  if commit then
    pk <- lift (model_save obj) ;;
    ret (with_pk obj pk)
  else ret obj.

End Factory.

End BoundForm.

(** ** [bound_object_formset] *)

Module BoundFormset.
Import BoundForm.

Section Factory.
Context {S Value Args FormState : Type} `{!Host S Value Args FormState}.

Abbreviation form_class := (base_form S Value Args FormState).
Abbreviation val := (pyval form_class).
Abbreviation W := (world event S).

(** A queryset: one the caller supplied, [model.objects.none()], or
    [model.objects.filter(field=v)]. *)
Inductive query_set :=
| QGiven (q : val)
| QNone (m : model_class)
| QFilter (m : model_class) (field : string) (v : Value).

(** The closure [construct] with the variables it closes over. *)
Record constructor := Construct {
  c_model : model_class;
  c_queryset : query_set;
  c_field : string;
  c_initial : bound_value S Value;
  c_form : option form_class;
  c_factory_kwargs : gmap string val
}.

(** A formset instance, held as the call that built it:
    [modelformset_factory(model, form, **factory_kwargs)] applied to [args, kwargs],
    where [kwargs] has had its ['queryset'] entry set. *)
Record formset := Formset {
  fs_model : model_class;
  fs_form : bound_form (S:=S) (Value:=Value) (Args:=Args) (FormState:=FormState);
  fs_factory_kwargs : gmap string val;
  fs_args : list val;
  fs_queryset : query_set;
  fs_kwargs : gmap string val   (* the entries other than ['queryset'] *)
}.

(** [field in x] *)
Definition contains (field : string) (x : val) : M W bool :=
  match x with
  | PListRef l =>
      w <- get ;;
      match heap w !! l with
      | Some names => ret (bool_decide (field ∈ names))
      | None => raise (HostError 0)   (* no such list: not a Python state *)
      end
  | PTuple names => ret (bool_decide (field ∈ names))
  | PStr s => ret (is_substring field s)
  | _ => raise TypeError
  end.

(** [x.append(field)] *)
Definition append (x : val) (field : string) : M W unit :=
  match x with
  | PListRef l =>
      modify (fun w =>
        World (trace w) (alter (fun names => names ++ [field]) l (heap w)) (store w))
  | _ => raise AttributeError
  end.

Definition bound_object_formset (_model : model_class) (queryset : query_set)
    (field : string) (initial : bound_value S Value)
    (form : option form_class) (factory_kwargs : gmap string val)
  : M W constructor :=
  match factory_kwargs !! "exclude" with
  | Some x =>
      present <- contains field x ;;
      if present then ret tt else append x field
  | None => ret tt
  end ;;;
  ret (Construct _model queryset field initial form factory_kwargs).

(** Calling the closure [construct] with positional and keyword arguments. *)
Definition construct (c : constructor) (args : list val)
    (kwargs : gmap string val) : M W formset :=
  F <- bound_object_form (c_model c) (c_field c) (c_initial c) (c_form c) ;;
  match c_factory_kwargs c !! "model" with
  | Some _ => raise TypeError   (* modelformset_factory got [model] twice *)
  | None =>
      ret (Formset (c_model c) F (c_factory_kwargs c) args (c_queryset c)
                   (delete "queryset" kwargs))
  end.

End Factory.

End BoundFormset.

(** ** [MultiBoundObjectFormsMixin] *)

Module MultiBoundObjectForms.
Import BoundForm BoundFormset.

Section Mixin.
Context {V H Args FormState : Type}.

(** The attributes of the view that the mixin reads ([self.object],
    [self.new_object]) and the rest of the request state.  An attribute
    value that is an object is [Some v] where a bound value is expected,
    Python's [None] is [None]. *)
Record view := View {
  object : attr V;
  new_object : attr V;
  host : H
}.

Context `{!Host view (option V) Args FormState}.

Abbreviation form_class := (base_form view (option V) Args FormState).
Abbreviation val := (pyval form_class).
Abbreviation W := (world event view).
Abbreviation query_set := (@BoundFormset.query_set view (option V) Args FormState).
Abbreviation constructor := (@BoundFormset.constructor view (option V) Args FormState).
Abbreviation formset := (@BoundFormset.formset view (option V) Args FormState).
Abbreviation formsets := (gmap string formset).

(** [FormMixin.get_form_kwargs(self)] *)
Variable form_mixin_get_form_kwargs : M view (gmap string val).

(** An entry of [forms_models]: a model, or a dictionary of configuration. *)
Inductive model_conf :=
| ConfModel (m : model_class)
| ConfDict (d : gmap string val).

(** The scan of [model._meta.fields] for a [ForeignKey]; the loop has no
    [break]. *)
Definition detect_foreign_key (fs : list field) : option string :=
  fold_left
    (fun foreign_key_field f =>
       if is_foreign_key f then Some (field_name f) else foreign_key_field)
    fs None.

(** [lambda: self.new_object] *)
Definition new_object_producer : bound_value view (option V) :=
  Producer (fun self =>
    match new_object self with
    | Missing => (Raise AttributeError, self)
    | PyNone => (Ok None, self)
    | Has o => (Ok (Some o), self)
    end).

(** The first half of the loop body: model, field name, queryset and
    factory options of an entry.  [model_conf['model']] is a model class and
    ['field_name'] a string or [None]. *)
Definition read_conf (model_conf : model_conf)
  : M W (model_class * option string * option query_set * gmap string val) :=
  match model_conf with
  | ConfDict d =>
      model <- match d !! "model" with
               | None => raise KeyError
               | Some (PModel m) => ret m
               | Some _ => raise AttributeError
               end ;;
      foreign_key_field <- match d !! "field_name" with
                           | None | Some PNone => ret None
                           | Some (PStr s) => ret (Some s)
                           | Some _ => raise TypeError
                           end ;;
      let queryset := match d !! "queryset" with
                      | None | Some PNone => None
                      | Some q => Some (QGiven q)
                      end in
      let factory_kwargs := delete "queryset" (delete "field_name" (delete "model" d)) in
      ret (model, foreign_key_field, queryset, factory_kwargs)
  | ConfModel m => ret (m, None, None, ∅)
  end.

(** [if foreign_key_field is None: ...] *)
Definition resolve_field (model : model_class) (foreign_key_field : option string)
  : M W string :=
  match foreign_key_field with
  | Some f => ret f
  | None =>
      match detect_foreign_key (fields model) with
      | Some f => ret f
      | None => raise ImproperlyConfigured
      end
  end.

(** [if queryset is None: ...] *)
Definition resolve_queryset (model : model_class) (foreign_key_field : string)
    (queryset : option query_set) : M W query_set :=
  match queryset with
  | Some q => ret q
  | None =>
      self <- lift get ;;
      match object self with
      | Missing | PyNone => ret (QNone model)
      | Has o => ret (QFilter model foreign_key_field (Some o))
      end
  end.

(** Binding of the call
    [bound_object_formset(model, queryset=.., field=.., initial=.., **factory_kwargs)]:
    a ['form'] option becomes the [form] argument, an option named like
    another argument is a [TypeError]. *)
Definition call_bound_object_formset (model : model_class) (queryset : query_set)
    (field : string) (initial : bound_value view (option V))
    (factory_kwargs : gmap string val) : M W constructor :=
  if existsb (fun k => bool_decide (is_Some (factory_kwargs !! k)))
       ["_model"; "queryset"; "field"; "initial"]
  then raise TypeError
  else
    form <- match factory_kwargs !! "form" with
            | None | Some PNone => ret None
            | Some (PForm f) => ret (Some f)
            | Some _ => raise AttributeError
            end ;;
    bound_object_formset model queryset field initial form
      (delete "form" factory_kwargs).

(** The body of the loop over [self.forms_models]. *)
Definition get_forms_entry (model_conf : model_conf) (forms : formsets)
  : M W formsets :=
  conf <- read_conf model_conf ;;
  let '(model, foreign_key_field, queryset, factory_kwargs) := conf in
  foreign_key_field <- resolve_field model foreign_key_field ;;
  queryset <- resolve_queryset model foreign_key_field queryset ;;
  make <- call_bound_object_formset model queryset foreign_key_field
            new_object_producer factory_kwargs ;;
  let key := lower (object_name model) in
  kwargs <- lift form_mixin_get_form_kwargs ;;
  match kwargs !! "prefix" with
  | Some _ => raise TypeError   (* [prefix] given twice *)
  | None =>
      fs <- construct make [] (<["prefix" := PStr key]> kwargs) ;;
      ret (<[key := fs]> forms)
  end.

Fixpoint get_forms_loop (confs : list model_conf) (forms : formsets)
  : M W formsets :=
  match confs with
  | [] => ret forms
  | model_conf :: rest =>
      forms' <- get_forms_entry model_conf forms ;;
      get_forms_loop rest forms'
  end.

Definition get_forms (forms_models : list model_conf) : M W formsets :=
  get_forms_loop forms_models ∅.

End Mixin.

End MultiBoundObjectForms.

(** ** [BoundCreateView] *)

Module BoundCreateView.

Section View.
Context {Obj Kwargs H : Type}.

(** [bool(obj)]: the truth value of an object, as its class defines it
    with [__nonzero__] or [__len__]; true when the class defines neither,
    as for a plain model instance. *)
Variable obj_bool : Obj -> bool.

(** [obj._meta] when [obj] has one: the model class of a model instance. *)
Variable obj_meta : Obj -> option model_class.

(** The truth value of the object in [self.model] that has this [_meta];
    true for a plain model class. *)
Variable model_bool : model_class -> bool.

(** The attributes of the view and the rest of the request state.
    [model] holds [None], a model class, or some other object without
    [_meta]. *)
Record view := View {
  object : attr Obj;
  model : attr (option model_class);
  template_name_suffix : string;
  host : H
}.

Definition set_object (o : attr Obj) (self : view) : view :=
  View o (model self) (template_name_suffix self) (host self).

(** The methods of the classes after [BoundCreateView] in the MRO. *)
Variable super_get_form_kwargs : M view Kwargs.
Variable super_get_template_names : M view (list string).

(** Reading [self.object]. *)
Definition read_object : M view (attr Obj) :=
  self <- get ;;
  match object self with
  | Missing => raise AttributeError
  | o => ret o
  end.

Definition get_form_kwargs : M view Kwargs :=
  _object <- read_object ;;
  modify (set_object PyNone) ;;;
  kwargs <- super_get_form_kwargs ;;
  modify (set_object _object) ;;;
  ret kwargs.

(** ["%s/%s%s.html" % (app, name, suffix)] *)
Definition template2 (app name suffix : string) : string :=
  app ++ "/" ++ name ++ suffix ++ ".html".

(** ["%s/%s_%s%s.html" % (app, parent, child, suffix)] *)
Definition template3 (app parent child suffix : string) : string :=
  app ++ "/" ++ parent ++ "_" ++ child ++ suffix ++ ".html".

(** Reading [self.model]. *)
Definition read_model : M view (attr (option model_class)) :=
  self <- get ;;
  match model self with
  | Missing => raise AttributeError
  | m => ret m
  end.

(** [self.object and hasattr(self.object, '_meta') and self.model and
    hasattr(self.model, '_meta')], giving the two [_meta] when true.  The
    four operands are evaluated from left to right and the first false one
    ends the test: [self.object] is tested for its truth value ([None] is
    false) before its [_meta] is looked for, and [self.model] is read only
    when both hold.  An object in [self.model] without [_meta] makes the
    test false whatever its truth value. *)
Definition parent_and_child : M view (option (model_class * model_class)) :=
  o <- read_object ;;
  match o with
  | Has obj =>
      if obj_bool obj then
        match obj_meta obj with
        | Some parent =>
            m <- read_model ;;
            match m with
            | Has (Some child) =>
                if model_bool child then ret (Some (parent, child))
                else ret None
            | _ => ret None
            end
        | None => ret None
        end
      else ret None
  | _ => ret None
  end.

Definition get_template_names : M view (list string) :=
  names <- try_except super_get_template_names ImproperlyConfigured (ret []) ;;
  metas <- parent_and_child ;;
  match metas with
  | Some (parent, child) =>
      self <- get ;;
      let parent_app := app_label parent in
      let parent_object_name := lower (object_name parent) in
      let child_app := app_label child in
      let child_object_name := lower (object_name child) in
      let suffix := template_name_suffix self in
      let names := template2 parent_app child_object_name suffix :: names in
      let names := template2 child_app child_object_name suffix :: names in
      let names := template3 child_app parent_object_name child_object_name suffix :: names in
      let names := template3 parent_app parent_object_name child_object_name suffix :: names in
      ret names
  | None => ret names
  end.

End View.

End BoundCreateView.

(** ** [ProcessMultipleFormsMixin] *)

Module ProcessMultipleForms.

Inductive form_id :=
| Primary
| Secondary (key : string).

(** The calls [post] makes on the forms and on the primary object. *)
Inductive event (Obj : Type) :=
| EvIsValid (f : form_id) (valid : bool)   (* [f.is_valid()] returned [valid] *)
| EvSave (f : form_id) (commit : bool)     (* [f.save(commit)] *)
| EvModelSave (obj : Obj)                  (* [obj.save()] *)
| EvSaveM2M                                (* [form.save_m2m()] *)
| EvRender.                                (* [self.render_to_response(..)] *)

Arguments EvIsValid {Obj} f valid.
Arguments EvSave {Obj} f commit.
Arguments EvModelSave {Obj} obj.
Arguments EvSaveM2M {Obj}.
Arguments EvRender {Obj}.

(** A call that saves: a form's [save] or [save_m2m], or [Model.save]. *)
Definition is_save {Obj} (ev : event Obj) : bool :=
  match ev with
  | EvSave _ _ | EvModelSave _ | EvSaveM2M => true
  | _ => false
  end.

(** An [is_valid()] that returned [False]. *)
Definition is_rejection {Obj} (ev : event Obj) : bool :=
  match ev with
  | EvIsValid _ false => true
  | _ => false
  end.

Inductive response (Url Body : Type) :=
| HttpResponseRedirect (url : Url)
| Rendered (body : Body).   (* what [render_to_response] returned *)

Arguments HttpResponseRedirect {Url Body} url.
Arguments Rendered {Url Body} body.

Section Mixin.
Context {FormClass Form Obj Url Ctx Body H : Type}.

(** [self.new_object] and the rest of the request state.  [Obj] is a
    reference to a model instance that lives in the host state. *)
Record view := View {
  new_object : attr Obj;
  host : H
}.

Definition set_new_object (o : Obj) (self : view) : view :=
  View (Has o) (host self).

(** The template context: the superclass's context updated with ['form']
    and ['forms']. *)
Record context := Context {
  ctx_super : Ctx;
  ctx_form : Form;
  ctx_forms : list (string * Form)
}.

(** The methods of the other classes of the view, of the forms and of the
    primary object.  [get_forms] gives the forms dictionary as its items in
    iteration order. *)
Variable get_form_class : M view FormClass.
Variable get_form : FormClass -> M view Form.
Variable get_forms : M view (list (string * Form)).
Variable super_get_context_data : M view Ctx.
Variable render_to_response : context -> M view Body.
Variable get_success_url : M view Url.
Variable is_valid : Form -> M view bool.
Variable form_save : Form -> bool -> M view Obj.
Variable save_m2m : Form -> M view unit.
Variable obj_save : Obj -> M view unit.

Abbreviation W := (world (event Obj) view).

Definition get_context_data : M W context :=
  form_class <- lift get_form_class ;;
  form <- lift (get_form form_class) ;;
  forms <- lift get_forms ;;
  ctx <- lift super_get_context_data ;;
  ret (Context ctx form forms).

(** [f.is_valid()], recorded with its answer. *)
Definition validate (id : form_id) (f : Form) : M W bool :=
  valid <- lift (is_valid f) ;;
  log (EvIsValid id valid) ;;;
  ret valid.

(** [form.is_valid() and all(map(lambda f: f.is_valid(), forms.values()))]:
    [and] skips the secondary forms when the primary form is invalid; [map]
    builds the whole list of answers before [all] looks at it. *)
Definition all_valid (form : Form) (forms : list (string * Form)) : M W bool :=
  valid <- validate Primary form ;;
  if valid then
    answers <- mapM (fun kf => validate (Secondary (fst kf)) (snd kf)) forms ;;
    ret (forallb id answers)
  else ret false.

Definition post : M W (response Url Body) :=
  form_class <- lift get_form_class ;;
  form <- lift (get_form form_class) ;;
  forms <- lift get_forms ;;
  ok <- all_valid form forms ;;
  if ok then
    new_obj <- call (EvSave Primary false) (form_save form false) ;;
    lift (modify (set_new_object new_obj)) ;;;
    call (EvModelSave new_obj) (obj_save new_obj) ;;;
    mapM (fun kf => call (EvSave (Secondary (fst kf)) true) (form_save (snd kf) true))
      forms ;;;
    call EvSaveM2M (save_m2m form) ;;;
    url <- lift get_success_url ;;
    ret (HttpResponseRedirect url)
  else
    ctx <- get_context_data ;;
    body <- call EvRender (render_to_response ctx) ;;
    ret (Rendered body).

End Mixin.

End ProcessMultipleForms.

(** * A small host to run the code on

    A toy instance of the framework: attribute values are integers, the
    host state is the list of rows written so far, and the default model
    form copies the submitted number into the instance's ["parent"] field,
    as a form with that field left editable would. *)

Module Toy.

Definition child : model_class :=
  Model "app2" "Child" [Field "id" false; Field "name" false; Field "parent" true].

Definition parent : model_class :=
  Model "app1" "Parent" [Field "id" false; Field "name" false].

Definition db := list (instance Z).

#[export] Instance toy_host : Host db Z Z Z := {|
  model_save := fun obj rows => (Ok (Z.of_nat (S (List.length rows))), rows ++ [obj]);
  modelform_init := fun data => ret data;
  modelform_save := fun m submitted _ =>
    ret (Instance m None {[ "parent" := submitted ]})
|}.

(** A producer that answers with the number of rows in the database. *)
Definition count_rows : M db Z := fun rows => (Ok (Z.of_nat (List.length rows)), rows).

Definition w0 : world BoundForm.event db := World [] ∅ [].

(** The factory and the methods of its classes on this host. *)
Abbreviation bound_form := (@BoundForm.bound_form db Z Z Z).
Abbreviation bound_object_form := (@BoundForm.bound_object_form db Z Z Z toy_host).
Abbreviation construct := (@BoundForm.construct db Z Z Z).
Abbreviation save := (@BoundForm.save db Z Z Z toy_host).

(** The class the factory makes for [child] bound to [initial]. *)
Definition child_form (initial : bound_value db Z) : bound_form :=
  BoundForm.BoundFormClass (BoundForm.default_form child) child ["parent"]
    "parent" initial.

(** What the default form makes of the submitted number. *)
Definition submitted (n : Z) : instance Z := Instance child None {[ "parent" := n ]}.

Abbreviation val := (pyval (base_form db Z Z Z)).
Abbreviation bound_object_formset :=
  (@BoundFormset.bound_object_formset db Z Z Z).

(** Formset options whose ['exclude'] is the list at address 0. *)
Definition options : gmap string val :=
  {[ "exclude" := PListRef 0; "can_delete" := PBool true ]}.

(** A world in which that list is [names]. *)
Definition with_list (names : list string) : world BoundForm.event db :=
  World [] {[ 0 := names ]} [].

(** One more call of the formset factory with those options. *)
Definition formset_call : M (world BoundForm.event db) BoundFormset.constructor :=
  bound_object_formset child (BoundFormset.QNone child) "parent" (Fixed 7%Z)
    None options.

(** A bound create view on a [parent] instance, creating a [child].  The
    superclass puts [self.object] into the form arguments as the instance,
    as [ModelFormMixin] does. *)
Definition create_view := @BoundCreateView.view (instance Z) unit.

Definition the_parent : instance Z := Instance parent (Some 3%Z) ∅.

Definition a_create_view : create_view :=
  BoundCreateView.View (Has the_parent) (Has (Some child)) "_create" tt.

Definition instance_kwarg : M create_view (attr (instance Z)) :=
  fun self => (Ok (BoundCreateView.object self), self).

Definition meta_of (o : instance Z) : option model_class := Some (inst_model o).

(** The truth value of instances and classes that define neither
    [__nonzero__] nor [__len__]. *)
Definition plain_bool {A} (_ : A) : bool := true.



Definition detail_template_name : M create_view (list string) :=
  ret ["app1/parent_create.html"].

(** A multi-form view: forms are a validity flag and the number of the
    object they save; saving appends that number to the host state. *)
Definition form := (bool * nat)%type.
Definition multi_view := @ProcessMultipleForms.view nat (list nat).

Definition persist (n : nat) : M multi_view unit :=
  fun self =>
    (Ok tt, ProcessMultipleForms.View (ProcessMultipleForms.new_object self)
              (ProcessMultipleForms.host self ++ [n])).

Definition toy_form_save (f : form) (commit : bool) : M multi_view nat :=
  if commit then persist (snd f) ;;; ret (snd f) else ret (snd f).

Abbreviation toy_post primary secondary :=
  (ProcessMultipleForms.post (FormClass:=unit) (Url:=string) (Ctx:=unit)
     (ret tt) (fun _ => ret (primary : form))
     (ret (secondary : list (string * form))) (ret tt)
     (fun ctx => ret ctx) (ret "/done") (fun f => ret (fst f))
     toy_form_save (fun _ => ret tt) persist).

Definition fresh_view : world (ProcessMultipleForms.event nat) multi_view :=
  World [] ∅ (ProcessMultipleForms.View Missing []).

(** A view with the multi-bound-object mixin: objects are numbers, forms
    carry no data, and [FormMixin.get_form_kwargs] gives no arguments. *)
Definition bound_view := @MultiBoundObjectForms.view Z unit.

#[export] Instance toy_view_host : Host bound_view (option Z) unit unit := {|
  model_save := fun obj self => (Ok 1%Z, self);
  modelform_init := fun _ => ret tt;
  modelform_save := fun m _ _ => ret (Instance m None ∅)
|}.

Abbreviation view_val := (pyval (base_form bound_view (option Z) unit unit)).
Abbreviation get_forms_entry :=
  (@MultiBoundObjectForms.get_forms_entry Z unit unit unit toy_view_host (ret ∅)).

Definition view_world (object : attr Z) : world BoundForm.event bound_view :=
  World [] ∅ (MultiBoundObjectForms.View object Missing tt).

(** A model with two foreign keys, [a] declared before [b]. *)
Definition link : model_class :=
  Model "app2" "Link" [Field "id" false; Field "a" true; Field "b" true].

End Toy.

(** * More of the small host *)

Module ToyForms.

(** A form class for [child] that already excludes ["name"]. *)
Definition named_form : base_form Toy.db Z Z Z :=
  BaseForm (Some Toy.child) (ExSeq ["name"]) (fun data => ret data)
    (fun submitted _ => ret (Toy.submitted submitted)).

(** A form class whose [Meta.exclude] is [None]. *)
Definition none_form : base_form Toy.db Z Z Z :=
  BaseForm (Some Toy.child) ExNone (fun data => ret data)
    (fun submitted _ => ret (Toy.submitted submitted)).

(** A producer that fails, as a lookup of a parent that does not exist. *)
Definition no_parent : M Toy.db Z := raise (HostError 404).

(** Formset options whose ['exclude'] is a tuple. *)
Definition tuple_options (names : list string) : gmap string Toy.val :=
  {[ "exclude" := PTuple names ]}.

Abbreviation construct_formset :=
  (@BoundFormset.construct Toy.db Z Z Z Toy.toy_host).

Abbreviation get_forms :=
  (@MultiBoundObjectForms.get_forms Z unit unit unit Toy.toy_view_host (ret ∅)).
Abbreviation view_formset :=
  (@BoundFormset.formset Toy.bound_view (option Z) unit unit).
Abbreviation view_save :=
  (@BoundForm.save Toy.bound_view (option Z) unit unit Toy.toy_view_host).

(** A configuration entry for [link] that names the field, the queryset
    and an ['exclude'] list, the list at address 0. *)
Definition link_conf : gmap string Toy.view_val :=
  {[ "model" := PModel Toy.link; "field_name" := PStr "a";
     "queryset" := PObject 9; "exclude" := PListRef 0; "extra" := PInt 2 ]}.

Definition view_world_with_list (names : list string) (object new_object : attr Z)
  : world BoundForm.event Toy.bound_view :=
  World [] {[ 0 := names ]} (MultiBoundObjectForms.View object new_object tt).

(** A superclass whose [get_form_kwargs] fails. *)
Definition failing_kwargs : M Toy.create_view (attr (instance Z)) :=
  raise (HostError 1).

(** A bound create view whose parent has not been resolved. *)
Definition unresolved_view : Toy.create_view :=
  BoundCreateView.View PyNone (Has (Some Toy.child)) "_create" tt.

End ToyForms.

(** ** The other methods of the multi-form views *)

Module MultipleFormsViews.
Import ProcessMultipleForms.

(** [ProcessMultipleFormsMixin.get_forms], to be overridden. *)
Definition get_forms {St Form : Type} : M St (list (string * Form)) :=
  raise ImproperlyConfigured.

Section Mixin.
Context {FormClass Form Obj Url Ctx Body H : Type}.

Variable get_form_class : M (@view Obj H) FormClass.
Variable get_form : FormClass -> M (@view Obj H) Form.
Variable get_forms : M (@view Obj H) (list (string * Form)).
Variable super_get_context_data : M (@view Obj H) Ctx.
Variable render_to_response : @context Form Ctx -> M (@view Obj H) Body.

(** [ProcessMultipleFormsMixin.get] *)
Definition get : M (world (event Obj) (@view Obj H)) (response Url Body) :=
  ctx <- get_context_data get_form_class get_form get_forms super_get_context_data ;;
  body <- call EvRender (render_to_response ctx) ;;
  ret (Rendered body).

End Mixin.

Section UpdateView.
Context {FormClass Form Obj Url Ctx Body H : Type}.

(** [MultipleFormsUpdateView] keeps the object it edits in [self.object]. *)
Record update_host := UpdateHost {
  object : attr Obj;
  rest : H
}.

Abbreviation update_view := (@view Obj update_host).

Definition set_object (obj : Obj) (self : update_view) : update_view :=
  View (new_object self) (UpdateHost (Has obj) (rest (host self))).

Variable get_object : M update_view Obj.
Variable get_form_class : M update_view FormClass.
Variable get_form : FormClass -> M update_view Form.
Variable get_forms : M update_view (list (string * Form)).
Variable super_get_context_data : M update_view Ctx.
Variable render_to_response : @context Form Ctx -> M update_view Body.
Variable get_success_url : M update_view Url.
Variable is_valid : Form -> M update_view bool.
Variable form_save : Form -> bool -> M update_view Obj.
Variable save_m2m : Form -> M update_view unit.
Variable obj_save : Obj -> M update_view unit.

(** [MultipleFormsUpdateView.get] *)
Definition update_get : M (world (event Obj) update_view) (response Url Body) :=
  obj <- lift get_object ;;
  lift (modify (set_object obj)) ;;;
  get get_form_class get_form get_forms super_get_context_data render_to_response.

(** [MultipleFormsUpdateView.post] *)
Definition update_post : M (world (event Obj) update_view) (response Url Body) :=
  obj <- lift get_object ;;
  lift (modify (set_object obj)) ;;;
  post get_form_class get_form get_forms super_get_context_data
    render_to_response get_success_url is_valid form_save save_m2m obj_save.

End UpdateView.

End MultipleFormsViews.

(** ** [BoundCreateView.get_form_class] *)

Module BoundCreateViewForm.
Import BoundForm.

Section View.
Context {Obj Args FormState H : Type}.

(** [self.object] and the rest of the request state. *)
Record view := View {
  object : attr Obj;
  host : H
}.

Definition set_object (o : attr Obj) (self : view) : view := View o (host self).

Context `{!Host view Obj Args FormState}.

(** The attributes of the class: [model], the model of the child,
    [bound_field] and [form_class]. *)
Variable model : model_class.
Variable bound_field : string.
Variable form_class : option (base_form view Obj Args FormState).

(** [SingleObjectMixin.get_object] *)
Variable get_object : M view Obj.

(** The bound value is the method [self.get_object] itself, not the object
    it has just returned. *)
Definition get_form_class : M (world event view) bound_form :=
  obj <- lift get_object ;;
  lift (modify (set_object (Has obj))) ;;;
  bound_object_form model bound_field (Producer get_object) form_class.

End View.

End BoundCreateViewForm.

(** * A small host for the other view methods *)

Module ToyViews.

(** A form whose [save] fails when it is to write the object 3. *)
Definition failing_form_save (f : Toy.form) (commit : bool) : M Toy.multi_view nat :=
  if commit && Nat.eqb (snd f) 3 then raise (HostError 500)
  else Toy.toy_form_save f commit.

Abbreviation failing_post primary secondary :=
  (ProcessMultipleForms.post (FormClass:=unit) (Url:=string) (Ctx:=unit)
     (ret tt) (fun _ => ret (primary : Toy.form))
     (ret (secondary : list (string * Toy.form))) (ret tt)
     (fun ctx => ret ctx) (ret "/done") (fun f => ret (fst f))
     failing_form_save (fun _ => ret tt) Toy.persist).

Abbreviation toy_get primary secondary :=
  (MultipleFormsViews.get (FormClass:=unit) (Url:=string) (Ctx:=unit) (Obj:=nat)
     (H:=list nat)
     (ret tt) (fun _ => ret (primary : Toy.form))
     (ret (secondary : list (string * Toy.form))) (ret tt)
     (fun ctx => ret ctx)).

(** A view that does not override [get_forms]. *)
Abbreviation abstract_post primary :=
  (ProcessMultipleForms.post (FormClass:=unit) (Url:=string) (Ctx:=unit)
     (ret tt) (fun _ => ret (primary : Toy.form))
     MultipleFormsViews.get_forms (ret tt)
     (fun ctx => ret ctx) (ret "/done") (fun f => ret (fst f))
     Toy.toy_form_save (fun _ => ret tt) Toy.persist).

(** An update view: the object it edits is a number. *)
Definition update_view :=
  @ProcessMultipleForms.view nat (@MultipleFormsViews.update_host nat unit).

Abbreviation toy_update_post get_object primary secondary :=
  (MultipleFormsViews.update_post (FormClass:=unit) (Url:=string) (Ctx:=unit)
     (get_object : M update_view nat)
     (ret tt) (fun _ => ret (primary : Toy.form))
     (ret (secondary : list (string * Toy.form))) (ret tt)
     (fun ctx => ret ctx) (ret "/done") (fun f => ret (fst f))
     (fun f _ => ret (snd f)) (fun _ => ret tt) (fun _ => ret tt)).

Definition fresh_update_view : world (ProcessMultipleForms.event nat) update_view :=
  World [] ∅ (ProcessMultipleForms.View Missing (MultipleFormsViews.UpdateHost Missing tt)).

(** A bound create view whose parent lookup answers with the number of
    lookups made before. *)
Definition counting_view := @BoundCreateViewForm.view nat nat.

#[export] Instance counting_host : Host counting_view nat unit unit := {|
  model_save := fun obj self => (Ok 1%Z, self);
  modelform_init := fun _ => ret tt;
  modelform_save := fun m _ _ => ret (Instance m None ∅)
|}.

Definition counting_lookup : M counting_view nat :=
  fun self =>
    (Ok (BoundCreateViewForm.host self),
     BoundCreateViewForm.View (BoundCreateViewForm.object self)
       (S (BoundCreateViewForm.host self))).

Abbreviation counting_get_form_class :=
  (@BoundCreateViewForm.get_form_class nat unit unit nat counting_host
     Toy.child "parent" None counting_lookup).

Abbreviation counting_save :=
  (@BoundForm.save counting_view nat unit unit counting_host).

Definition counting_world : world BoundForm.event counting_view :=
  World [] ∅ (BoundCreateViewForm.View Missing 0).

End ToyViews.

(** * Properties *)

(** ** The monad *)

Lemma bind_inv {St A B} (c : M St A) (k : A -> M St B) s r s' :
  bind c k s = (r, s') ->
  (exists a s1, c s = (Ok a, s1) /\ k a s1 = (r, s')) \/
  (exists e, c s = (Raise e, s') /\ r = Raise e).
Proof.
  unfold bind. destruct (c s) as [[a|e] s1]; intros Hk.
  - left. eauto.
  - right. injection Hk as <- <-. eauto.
Qed.

Lemma bind_inv_ok {St A B} (c : M St A) (k : A -> M St B) s b s' :
  bind c k s = (Ok b, s') ->
  exists a s1, c s = (Ok a, s1) /\ k a s1 = (Ok b, s').
Proof.
  intros Hb. apply bind_inv in Hb as [Hok | [e [_ He]]]; [exact Hok | discriminate He].
Qed.

Lemma bind_ok {St A B} (c : M St A) (k : A -> M St B) s a s1 :
  c s = (Ok a, s1) -> bind c k s = k a s1.
Proof. unfold bind. intros ->. reflexivity. Qed.

Lemma bind_raise {St A B} (c : M St A) (k : A -> M St B) s e s1 :
  c s = (Raise e, s1) -> bind c k s = (Raise e, s1).
Proof. unfold bind. intros ->. reflexivity. Qed.

Lemma lift_inv {Ev S A} (c : M S A) (w : world Ev S) r w' :
  lift c w = (r, w') ->
  c (store w) = (r, store w') /\ trace w' = trace w /\ heap w' = heap w.
Proof.
  unfold lift. destruct (c (store w)) as [r0 s0]. intros [= <- <-]. auto.
Qed.

Lemma log_inv {Ev S} (ev : Ev) (w : world Ev S) r w' :
  log ev w = (r, w') ->
  r = Ok tt /\ w' = World (trace w ++ [ev]) (heap w) (store w).
Proof. unfold log, modify. intros [= <- <-]. auto. Qed.

Lemma call_inv {Ev S A} ev (c : M S A) (w : world Ev S) r w' :
  call ev c w = (r, w') ->
  c (store w) = (r, store w') /\ trace w' = trace w ++ [ev] /\ heap w' = heap w.
Proof.
  unfold call. intros Hc. apply bind_inv in Hc as [(u & w1 & Hl & Hc) | (e & Hl & _)].
  - apply log_inv in Hl as [_ ->]. apply lift_inv in Hc. exact Hc.
  - apply log_inv in Hl as [Hl _]. discriminate Hl.
Qed.

(** ** [bound_object_form] *)

Section BoundFormProperties.
Import BoundForm.
Context {S Value Args FormState : Type} `{!Host S Value Args FormState}.

Implicit Types (w : world event S) (initial : bound_value S Value).
Implicit Types (F : @bound_form S Value Args FormState).

(** Producing the form class changes nothing and calls nothing. *)
Lemma bound_object_form_pure _model field initial form w r w' :
  bound_object_form _model field initial form w = (r, w') -> w' = w.
Proof.
  unfold bound_object_form, bind, ret, raise. intros Hr.
  repeat case_match; simplify_eq; reflexivity.
Qed.

(** What the produced class is made of. *)
Lemma bound_object_form_inv _model field initial form w F w' :
  bound_object_form _model field initial form w = (Ok F, w') ->
  closure_field F = field /\ closure_initial F = initial /\
  superclass F = match form with None => default_form _model | Some f => f end /\
  field ∈ meta_exclude F.
Proof.
  unfold bound_object_form, bind, ret, raise. intros Hr.
  repeat case_match; simplify_eq; cbn; repeat split;
    try (eapply bool_decide_eq_true; eassumption); set_solver.
Qed.

(** With the default form class the factory always returns a class. *)
Lemma bound_object_form_default _model field initial w :
  exists F, bound_object_form _model field initial None w = (Ok F, w).
Proof. eexists. reflexivity. Qed.

Lemma resolve_fixed_inv (v : Value) w r w' :
  resolve (Fixed v) w = (r, w') -> r = Ok v /\ w' = w.
Proof. cbn. unfold ret. intros [= <- <-]. auto. Qed.

(** How a [save] runs: the superclass's deferred save, then the bound value,
    then (on commit) [Model.save]. *)
Lemma save_inv F self commit w r w' :
  save F self commit w = (r, w') ->
  (exists e, lift (bf_save (superclass F) self false) w = (Raise e, w') /\ r = Raise e) \/
  exists obj0 wa,
    lift (bf_save (superclass F) self false) w = (Ok obj0, wa) /\
    ((exists e, resolve (closure_initial F) wa = (Raise e, w') /\ r = Raise e) \/
     exists v wb,
       resolve (closure_initial F) wa = (Ok v, wb) /\
       forall obj, r = Ok obj ->
         inst_attrs obj = <[closure_field F := v]> (inst_attrs obj0)).
Proof.
  unfold save. intros Hs.
  apply bind_inv in Hs as [(obj0 & wa & Hbase & Hs) | (e & Hbase & ->)]; [|left; eauto].
  right. exists obj0, wa. split; [exact Hbase|].
  apply bind_inv in Hs as [(v & wb & Hres & Hs) | (e & Hres & ->)]; [|left; eauto].
  right. exists v, wb. split; [exact Hres|].
  intros obj ->. destruct commit.
  - apply bind_inv_ok in Hs as (pk & wc & _ & Hs).
    injection Hs as <- _. reflexivity.
  - injection Hs as <- _. reflexivity.
Qed.

(** C1: the class produced by the bound form factory lists the parent
    field in its [Meta.exclude], and the instance its [save] returns has the
    parent field set to the resolved bound value (the plain value, or what
    the producer returned when called after the superclass's deferred
    save), whatever the superclass's save made of the submitted data. *)
Theorem bound_form_forces_parent_field
    _model field initial form w F w' self commit w1 obj w2 :
  bound_object_form _model field initial form w = (Ok F, w') ->
  save F self commit w1 = (Ok obj, w2) ->
  field ∈ meta_exclude F /\
  match initial with
  | Fixed v => inst_attrs obj !! field = Some v
  | Producer p =>
      exists obj0 s1 v s2,
        bf_save (superclass F) self false (store w1) = (Ok obj0, s1) /\
        p s1 = (Ok v, s2) /\
        inst_attrs obj !! field = Some v
  end.
Proof.
  intros HF Hsave.
  apply bound_object_form_inv in HF as (Hfield & Hinit & _ & Hex).
  split; [exact Hex|].
  apply save_inv in Hsave as [(e & _ & He) | (obj0 & wa & Hbase & Hrest)];
    [discriminate He|].
  destruct Hrest as [(e & _ & He) | (v & wb & Hres & Hattrs)]; [discriminate He|].
  specialize (Hattrs obj eq_refl). rewrite Hfield in Hattrs.
  rewrite Hinit in Hres. destruct initial as [v0|p].
  - apply resolve_fixed_inv in Hres as [[= ->] _].
    rewrite Hattrs. apply lookup_insert_eq.
  - cbn in Hres. apply call_inv in Hres as (Hp & _ & _).
    apply lift_inv in Hbase as (Hbase & _ & _).
    exists obj0, (store wa), v, (store wb). repeat split; try assumption.
    rewrite Hattrs. apply lookup_insert_eq.
Qed.

(** C4: with a zero-argument callable as bound value, neither producing
    the form class nor constructing a form calls it; a [save] calls it
    exactly once, after the superclass's deferred save has returned, and
    assigns what it returned to the parent field. *)
Theorem producer_called_at_save_only
    _model field p form w F w' args wa ra wa' self commit w1 r w2 :
  bound_object_form _model field (Producer p) form w = (Ok F, w') ->
  construct F args wa = (ra, wa') ->
  save F self commit w1 = (r, w2) ->
  trace w' = trace w /\
  trace wa' = trace wa /\
  match bf_save (superclass F) self false (store w1) with
  | (Ok obj0, s1) =>
      trace w2 = trace w1 ++ [EvProducer] /\
      forall obj, r = Ok obj ->
        exists v s2, p s1 = (Ok v, s2) /\ inst_attrs obj !! field = Some v
  | (Raise _, _) => trace w2 = trace w1
  end.
Proof.
  intros HF Hcons Hsave.
  pose proof (bound_object_form_pure _ _ _ _ _ _ _ HF) as ->.
  apply bound_object_form_inv in HF as (Hfield & Hinit & _ & _).
  split; [reflexivity|]. split.
  { unfold construct in Hcons. apply lift_inv in Hcons as (_ & Ht & _). exact Ht. }
  unfold save in Hsave. rewrite Hinit, Hfield in Hsave. cbn [resolve] in Hsave.
  apply bind_inv in Hsave as [(obj0 & wb & Hbase & Hsave) | (e & Hbase & ->)].
  - apply lift_inv in Hbase as (Hbase & Htb & _). rewrite Hbase.
    apply bind_inv in Hsave as [(v & wc & Hcall & Hsave) | (e & Hcall & ->)].
    + apply call_inv in Hcall as (Hp & Htc & _). rewrite Htb in Htc.
      assert (Ht2 : trace w2 = trace wc).
      { destruct commit.
        - apply bind_inv in Hsave as [(pk & wd & Hms & Hret) | (e & Hms & _)].
          + apply lift_inv in Hms as (_ & Htd & _). injection Hret as _ <-. exact Htd.
          + apply lift_inv in Hms as (_ & Htd & _). exact Htd.
        - injection Hsave as _ <-. reflexivity. }
      split; [congruence|].
      intros obj ->. exists v, (store wc). split; [exact Hp|].
      destruct commit.
      * apply bind_inv_ok in Hsave as (pk & wd & _ & Hret).
        injection Hret as <- _. apply lookup_insert_eq.
      * injection Hsave as <- _. apply lookup_insert_eq.
    + apply call_inv in Hcall as (_ & Htc & _). rewrite Htb in Htc.
      split; [exact Htc|]. intros obj [=].
  - apply lift_inv in Hbase as (Hbase & Htb & _). rewrite Hbase. exact Htb.
Qed.

End BoundFormProperties.

(** The submitted value 99 is overwritten by the bound value 7. *)
Lemma bound_form_forces_parent_field_witness :
  let F := Toy.child_form (Fixed 7%Z) in
  let obj := Instance Toy.child (Some 1%Z) {[ "parent" := 7%Z ]} in
  Toy.bound_object_form Toy.child "parent" (Fixed 7%Z) None Toy.w0 = (Ok F, Toy.w0) /\
  Toy.save F 99%Z true Toy.w0
  = (Ok obj, World [] ∅ [setattr (Toy.submitted 99) "parent" 7%Z]) /\
  "parent" ∈ BoundForm.meta_exclude F /\ inst_attrs obj !! "parent" = Some 7%Z.
Proof.
  intros F obj.
  assert (HF : Toy.bound_object_form Toy.child "parent" (Fixed 7%Z) None Toy.w0
               = (Ok F, Toy.w0)) by reflexivity.
  assert (Hs : Toy.save F 99%Z true Toy.w0
               = (Ok obj, World [] ∅ [setattr (Toy.submitted 99) "parent" 7%Z])).
  { unfold BoundForm.save, bind, lift, BoundForm.resolve, ret, obj,
      setattr, with_pk, Toy.submitted. cbn.
    rewrite insert_singleton_eq. reflexivity. }
  split; [exact HF|]. split; [exact Hs|].
  exact (@bound_form_forces_parent_field Toy.db Z Z Z Toy.toy_host
           _ _ _ _ _ _ _ _ _ _ _ _ HF Hs).
Defined.

(** Constructing the form leaves the producer alone; the save that follows
    calls it once and stores the row count it answered with. *)
Lemma producer_called_at_save_only_witness :
  let F := Toy.child_form (Producer Toy.count_rows) in
  let w1 : world BoundForm.event Toy.db := World [] ∅ [Toy.submitted 5; Toy.submitted 6] in
  exists obj w2,
    Toy.construct F 99%Z Toy.w0 = (Ok 99%Z, Toy.w0) /\
    Toy.save F 99%Z false w1 = (Ok obj, w2) /\
    trace w2 = [BoundForm.EvProducer] /\
    inst_attrs obj !! "parent" = Some 2%Z.
Proof.
  intros F w1.
  assert (HF : Toy.bound_object_form Toy.child "parent" (Producer Toy.count_rows) None Toy.w0
               = (Ok F, Toy.w0)) by reflexivity.
  assert (Hc : Toy.construct F 99%Z Toy.w0 = (Ok 99%Z, Toy.w0)) by reflexivity.
  destruct (Toy.save F 99%Z false w1) as [r w2] eqn:Hs.
  pose proof (@producer_called_at_save_only Toy.db Z Z Z Toy.toy_host
                _ _ _ _ _ _ _ _ _ _ _ _ _ _ _ _ HF Hc Hs) as (_ & _ & Hcall).
  cbn in Hcall. destruct Hcall as [Ht Hobj].
  vm_compute in Hs. injection Hs as <- <-.
  eexists _, _. split; [exact Hc|]. split; [reflexivity|].
  split; [reflexivity|].
  destruct (Hobj _ eq_refl) as (v & s2 & Hp & Hv).
  vm_compute in Hp. injection Hp as <- _. exact Hv.
Defined.

(** ** [bound_object_formset] *)

Section BoundFormsetProperties.
Import BoundForm BoundFormset.
Context {S Value Args FormState : Type}.

Abbreviation val := (pyval (base_form S Value Args FormState)).
Implicit Types (w : world event S) (factory_kwargs : gmap string val).
Implicit Types (queryset : @query_set S Value Args FormState).

Lemma excluded_elem field names : field ∈ excluded field names.
Proof. unfold excluded. case_bool_decide; set_solver. Qed.

Lemma excluded_idem field names :
  excluded field (excluded field names) = excluded field names.
Proof.
  unfold excluded at 1. rewrite bool_decide_eq_true_2; [reflexivity|].
  apply excluded_elem.
Qed.

Lemma occurrences_app field l1 l2 :
  occurrences field (l1 ++ l2) = occurrences field l1 + occurrences field l2.
Proof. apply count_occ_app. Qed.

Lemma occurrences_absent field names :
  field ∉ names -> occurrences field names = 0.
Proof.
  intros Hn. apply count_occ_not_In. rewrite <- list_elem_of_In. exact Hn.
Qed.

Lemma occurrences_present field names :
  field ∈ names -> 1 <= occurrences field names.
Proof.
  intros Hin. apply list_elem_of_In in Hin.
  apply (count_occ_In String.string_dec) in Hin. unfold occurrences. lia.
Qed.

Lemma occurrences_excluded field names :
  occurrences field (excluded field names) = max 1 (occurrences field names).
Proof.
  unfold excluded. case_bool_decide as Hin.
  - apply occurrences_present in Hin. lia.
  - rewrite occurrences_app, (occurrences_absent _ _ Hin). cbn.
    destruct (string_dec field field); [reflexivity | congruence].
Qed.

(** One call with an ['exclude'] list: the list is updated where it lives,
    and nothing else changes. *)
Lemma bound_object_formset_exclude
    _model queryset field initial form factory_kwargs l names w :
  factory_kwargs !! "exclude" = Some (PListRef l) ->
  heap w !! l = Some names ->
  bound_object_formset _model queryset field initial form factory_kwargs w
  = (Ok (Construct _model queryset field initial form factory_kwargs),
     World (trace w) (<[l := excluded field names]> (heap w)) (store w)).
Proof.
  intros Hkw Hl. unfold bound_object_formset. rewrite Hkw.
  unfold bind, contains, get, ret, append, modify, excluded. cbn. rewrite Hl.
  destruct w as [t h s]. cbn in *. case_bool_decide; cbn.
  - rewrite insert_id by exact Hl. reflexivity.
  - do 3 f_equal. apply map_eq. intros i.
    rewrite lookup_alter, lookup_insert. case_decide; [|reflexivity].
    rewrite Hl. reflexivity.
Qed.

Lemma bound_object_formset_present
    _model queryset field initial form factory_kwargs l names w n :
  factory_kwargs !! "exclude" = Some (PListRef l) ->
  heap w !! l = Some names ->
  field ∈ names ->
  times n (bound_object_formset _model queryset field initial form factory_kwargs) w
  = (Ok tt, w).
Proof.
  intros Hkw Hl Hin. induction n as [|n IH]; [reflexivity|].
  cbn [times]. erewrite bind_ok.
  2:{ apply bound_object_formset_exclude; eassumption. }
  unfold excluded. rewrite bool_decide_eq_true_2 by exact Hin.
  rewrite insert_id by exact Hl. destruct w; exact IH.
Qed.

(** C10, as the code has it: the formset factory updates the caller's
    ['exclude'] list in place, appending the parent field when the list
    lacks it and nothing otherwise; after one or more calls with the same
    list the list holds the field as often as before, or once if it did not
    hold it: exactly once when it held it at most once. *)
Theorem exclude_list_after_calls
    _model queryset field initial form factory_kwargs l names w n :
  factory_kwargs !! "exclude" = Some (PListRef l) ->
  heap w !! l = Some names ->
  times (Datatypes.S n)
    (bound_object_formset _model queryset field initial form factory_kwargs) w
  = (Ok tt, World (trace w) (<[l := excluded field names]> (heap w)) (store w)) /\
  occurrences field (excluded field names) = max 1 (occurrences field names) /\
  (occurrences field names <= 1 -> occurrences field (excluded field names) = 1).
Proof.
  intros Hkw Hl. split; [|split].
  - cbn [times]. erewrite bind_ok.
    2:{ apply bound_object_formset_exclude; eassumption. }
    apply bound_object_formset_present with (l := l) (names := excluded field names).
    + exact Hkw.
    + cbn. apply lookup_insert_eq.
    + apply excluded_elem.
  - apply occurrences_excluded.
  - intros Hle. rewrite occurrences_excluded. lia.
Qed.

End BoundFormsetProperties.

(** Three calls on the list [["name"]] leave it as [["name"; "parent"]]. *)
Lemma exclude_list_after_calls_witness :
  times 3 Toy.formset_call (Toy.with_list ["name"])
  = (Ok tt, Toy.with_list ["name"; "parent"]) /\
  occurrences "parent" ["name"; "parent"] = 1.
Proof.
  destruct (@exclude_list_after_calls Toy.db Z Z Z Toy.child
              (BoundFormset.QNone Toy.child) "parent" (Fixed 7%Z) None Toy.options
              0 ["name"] (Toy.with_list ["name"]) 2)
    as (Hrun & _ & Hone).
  - reflexivity.
  - reflexivity.
  - split.
    + etransitivity; [exact Hrun|]. unfold Toy.with_list. cbn.
      rewrite insert_singleton_eq. reflexivity.
    + apply Hone. cbn. lia.
Defined.

(** A list that names the parent field twice still does after a call: the
    field is then not there "exactly once". *)
Lemma exclude_list_duplicates_kept :
  exists w' names',
    times 1 Toy.formset_call (Toy.with_list ["parent"; "parent"]) = (Ok tt, w') /\
    heap w' !! 0 = Some names' /\
    occurrences "parent" names' <> 1.
Proof.
  exists (Toy.with_list ["parent"; "parent"]), ["parent"; "parent"].
  split; [|split].
  - apply (bound_object_formset_present (S:=Toy.db) (Value:=Z) (Args:=Z) (FormState:=Z))
      with (l := 0) (names := ["parent"; "parent"]).
    + reflexivity.
    + reflexivity.
    + set_solver.
  - reflexivity.
  - cbn. discriminate.
Qed.

(** ** [BoundCreateView] *)

Section BoundCreateViewProperties.
Import BoundCreateView.
Context {Obj Kwargs H : Type}.
Variable obj_bool : Obj -> bool.
Variable obj_meta : Obj -> option model_class.
Variable model_bool : model_class -> bool.
Variable super_get_form_kwargs : M (@view Obj H) Kwargs.
Variable super_get_template_names : M (@view Obj H) (list string).

Implicit Types (self : @view Obj H).

Abbreviation get_form_kwargs := (get_form_kwargs super_get_form_kwargs).
Abbreviation parent_and_child :=
  (parent_and_child obj_bool obj_meta model_bool).
Abbreviation get_template_names :=
  (get_template_names obj_bool obj_meta model_bool super_get_template_names).

Lemma read_object_inv self r self' :
  read_object self = (r, self') ->
  self' = self /\
  (r = Ok (object self) /\ object self <> Missing \/
   r = Raise AttributeError /\ object self = Missing).
Proof.
  unfold read_object, bind, get, ret, raise.
  destruct (object self) eqn:Ho; intros [= <- <-]; split; auto; left; split;
    congruence.
Qed.

Lemma read_object_ok self :
  object self <> Missing -> read_object self = (Ok (object self), self).
Proof.
  intros Hobj. unfold read_object, bind, get, ret.
  destruct (object self); [congruence | reflexivity | reflexivity].
Qed.

(** C8: [get_form_kwargs] returns what the superclass computes while
    [self.object] is [None], and when it has returned [self.object] is what
    it was before the call. *)
Theorem get_form_kwargs_restores_object self kwargs self' :
  get_form_kwargs self = (Ok kwargs, self') ->
  exists self1,
    super_get_form_kwargs (set_object PyNone self) = (Ok kwargs, self1) /\
    self' = set_object (object self) self1 /\
    object self' = object self.
Proof.
  unfold BoundCreateView.get_form_kwargs. intros Hk.
  apply bind_inv_ok in Hk as (_object & s0 & Hread & Hk).
  apply read_object_inv in Hread as [-> [[[= <-] _] | [[=] _]]].
  apply bind_inv_ok in Hk as ([] & s1 & Hclear & Hk).
  injection Hclear as <-.
  apply bind_inv_ok in Hk as (kw & s2 & Hsuper & Hk).
  apply bind_inv_ok in Hk as ([] & s3 & Hrestore & Hk).
  injection Hrestore as <-. injection Hk as <- <-.
  exists s2. repeat split. exact Hsuper.
Qed.

(** It returns whenever [self.object] is set and the superclass returns. *)
Lemma get_form_kwargs_returns self kwargs self1 :
  object self <> Missing ->
  super_get_form_kwargs (set_object PyNone self) = (Ok kwargs, self1) ->
  get_form_kwargs self = (Ok kwargs, set_object (object self) self1).
Proof.
  intros Hobj Hsuper. unfold BoundCreateView.get_form_kwargs.
  rewrite (bind_ok _ _ _ _ _ (read_object_ok self Hobj)).
  unfold bind at 1. cbn. unfold bind at 1. rewrite Hsuper. reflexivity.
Qed.

Lemma read_model_ok self :
  model self <> Missing -> read_model self = (Ok (model self), self).
Proof.
  intros Hmodel. unfold read_model, bind, get, ret.
  destruct (model self); [congruence | reflexivity | reflexivity].
Qed.

(** The test of line 199 holds for a true parent object with [_meta] and a
    true child model with [_meta]. *)
Lemma parent_and_child_some self o parent child :
  object self = Has o -> obj_bool o = true -> obj_meta o = Some parent ->
  model self = Has (Some child) -> model_bool child = true ->
  parent_and_child self = (Ok (Some (parent, child)), self).
Proof.
  intros Ho Hbool Hmeta Hmodel Hmbool. unfold BoundCreateView.parent_and_child.
  rewrite (bind_ok _ _ _ (object self) self) by (apply read_object_ok; congruence).
  rewrite Ho, Hbool, Hmeta.
  rewrite (bind_ok _ _ _ (model self) self) by (apply read_model_ok; congruence).
  rewrite Hmodel, Hmbool. reflexivity.
Qed.

(** It fails for a false parent object, without reading [self.model]. *)
Lemma parent_and_child_false_object self o :
  object self = Has o -> obj_bool o = false ->
  parent_and_child self = (Ok None, self).
Proof.
  intros Ho Hbool. unfold BoundCreateView.parent_and_child.
  rewrite (bind_ok _ _ _ (object self) self) by (apply read_object_ok; congruence).
  rewrite Ho, Hbool. reflexivity.
Qed.

(** It fails for a false child model. *)
Lemma parent_and_child_false_model self child :
  object self <> Missing ->
  model self = Has (Some child) -> model_bool child = false ->
  parent_and_child self = (Ok None, self).
Proof.
  intros Ho Hmodel Hmbool. unfold BoundCreateView.parent_and_child.
  rewrite (bind_ok _ _ _ (object self) self) by (apply read_object_ok; exact Ho).
  destruct (object self) as [| |o]; [congruence | reflexivity |].
  destruct (obj_bool o); [|reflexivity].
  destruct (obj_meta o); [|reflexivity].
  rewrite (bind_ok _ _ _ (model self) self) by (apply read_model_ok; congruence).
  rewrite Hmodel, Hmbool. reflexivity.
Qed.

(** The names the view itself contributes, most specific first. *)
Lemma get_template_names_own self names0 self1 o parent child :
  try_except super_get_template_names ImproperlyConfigured (ret []) self
  = (Ok names0, self1) ->
  object self1 = Has o -> obj_bool o = true -> obj_meta o = Some parent ->
  model self1 = Has (Some child) -> model_bool child = true ->
  get_template_names self
  = (Ok ([ template3 (app_label parent) (lower (object_name parent))
             (lower (object_name child)) (template_name_suffix self1);
           template3 (app_label child) (lower (object_name parent))
             (lower (object_name child)) (template_name_suffix self1);
           template2 (app_label child) (lower (object_name child))
             (template_name_suffix self1);
           template2 (app_label parent) (lower (object_name child))
             (template_name_suffix self1) ] ++ names0), self1).
Proof.
  intros Hsuper Ho Hbool Hmeta Hmodel Hmbool.
  unfold BoundCreateView.get_template_names.
  rewrite (bind_ok _ _ _ _ _ Hsuper).
  rewrite (bind_ok _ _ _ _ _
             (parent_and_child_some _ _ _ _ Ho Hbool Hmeta Hmodel Hmbool)).
  reflexivity.
Qed.

(** When the test of line 199 fails the result is what the superclass
    chain gave, or the empty list. *)
Lemma get_template_names_none self names0 self1 :
  try_except super_get_template_names ImproperlyConfigured (ret []) self
  = (Ok names0, self1) ->
  parent_and_child self1 = (Ok None, self1) ->
  get_template_names self = (Ok names0, self1).
Proof.
  intros Hsuper Hnone. unfold BoundCreateView.get_template_names.
  rewrite (bind_ok _ _ _ _ _ Hsuper).
  rewrite (bind_ok _ _ _ _ _ Hnone). reflexivity.
Qed.

(** A parent object that is false gets no name of its own, with or without
    [_meta]: the result is the superclass's list. *)
Lemma template_names_false_parent self names0 self1 o :
  super_get_template_names self = (Ok names0, self1) ->
  object self1 = Has o -> obj_bool o = false ->
  get_template_names self = (Ok names0, self1).
Proof.
  intros Hsuper Ho Hbool. apply get_template_names_none.
  - unfold try_except. rewrite Hsuper. reflexivity.
  - exact (parent_and_child_false_object _ _ Ho Hbool).
Qed.

(** And when the superclass chain raises [ImproperlyConfigured] the result
    for a false parent object is the empty list. *)
Lemma template_names_false_parent_without_super self self1 o :
  super_get_template_names self = (Raise ImproperlyConfigured, self1) ->
  object self1 = Has o -> obj_bool o = false ->
  get_template_names self = (Ok [], self1).
Proof.
  intros Hsuper Ho Hbool. apply get_template_names_none.
  - unfold try_except. rewrite Hsuper. reflexivity.
  - exact (parent_and_child_false_object _ _ Ho Hbool).
Qed.



(** When the test of line 199 fails it returns the empty list then. *)
Lemma template_names_without_super_or_meta self self1 :
  super_get_template_names self = (Raise ImproperlyConfigured, self1) ->
  parent_and_child self1 = (Ok None, self1) ->
  get_template_names self = (Ok [], self1).
Proof.
  intros Hsuper Hnone. apply get_template_names_none; [|exact Hnone].
  unfold try_except. rewrite Hsuper. reflexivity.
Qed.

(** Any other exception of the superclass chain is passed on. *)
Lemma template_names_other_exception self self1 e :
  super_get_template_names self = (Raise e, self1) ->
  e <> ImproperlyConfigured ->
  get_template_names self = (Raise e, self1).
Proof.
  intros Hsuper He. unfold BoundCreateView.get_template_names.
  apply bind_raise. unfold try_except. rewrite Hsuper.
  rewrite decide_False by exact He. reflexivity.
Qed.

End BoundCreateViewProperties.

(** The superclass is asked with [self.object] cleared and answers with
    [None] as the instance; the parent is back afterwards. *)
Lemma get_form_kwargs_restores_object_witness :
  BoundCreateView.get_form_kwargs Toy.instance_kwarg Toy.a_create_view
  = (Ok PyNone, Toy.a_create_view) /\
  exists self1,
    Toy.instance_kwarg (BoundCreateView.set_object PyNone Toy.a_create_view)
    = (Ok PyNone, self1) /\
    Toy.a_create_view
    = BoundCreateView.set_object (BoundCreateView.object Toy.a_create_view) self1 /\
    BoundCreateView.object Toy.a_create_view = Has Toy.the_parent.
Proof.
  assert (Hrun : BoundCreateView.get_form_kwargs Toy.instance_kwarg Toy.a_create_view
                 = (Ok PyNone, Toy.a_create_view)) by reflexivity.
  split; [exact Hrun|].
  exact (get_form_kwargs_restores_object Toy.instance_kwarg _ _ _ Hrun).
Defined.





(** ** [ProcessMultipleFormsMixin.post] *)

Section ProcessMultipleFormsProperties.
Import ProcessMultipleForms.
Context {FormClass Form Obj Url Ctx Body H : Type}.

Abbreviation view := (@view Obj H).
Abbreviation context := (@context Form Ctx).
Abbreviation W := (world (event Obj) view).

Variable get_form_class : M view FormClass.
Variable get_form : FormClass -> M view Form.
Variable get_forms : M view (list (string * Form)).
Variable super_get_context_data : M view Ctx.
Variable render_to_response : context -> M view Body.
Variable get_success_url : M view Url.
Variable is_valid : Form -> M view bool.
Variable form_save : Form -> bool -> M view Obj.
Variable save_m2m : Form -> M view unit.
Variable obj_save : Obj -> M view unit.

Abbreviation validate := (validate (H:=H) is_valid).
Abbreviation all_valid := (all_valid (H:=H) is_valid).
Abbreviation get_context_data :=
  (get_context_data get_form_class get_form get_forms super_get_context_data).
Abbreviation post :=
  (post get_form_class get_form get_forms super_get_context_data
     render_to_response get_success_url is_valid form_save save_m2m obj_save).

Implicit Types (w : W) (t : list (event Obj)) (forms : list (string * Form)).

(** The trace of a run extends the trace it started with. *)
Abbreviation extends w' w t := (trace w' = trace w ++ t).

Lemma extends_refl w : extends w w [].
Proof. rewrite app_nil_r. reflexivity. Qed.

Lemma extends_trans w1 w2 w3 t1 t2 :
  extends w2 w1 t1 -> extends w3 w2 t2 -> extends w3 w1 (t1 ++ t2).
Proof. intros H1 H2. rewrite H2, H1, app_assoc. reflexivity. Qed.

Lemma lift_extends {A} (c : M view A) w r w' :
  lift c w = (r, w') -> extends w' w [].
Proof.
  intros Hl. apply lift_inv in Hl as (_ & Ht & _).
  rewrite app_nil_r. exact Ht.
Qed.

Lemma call_extends {A} ev (c : M view A) w r w' :
  call ev c w = (r, w') -> extends w' w [ev].
Proof. intros Hc. apply call_inv in Hc as (_ & Ht & _). exact Ht. Qed.

Lemma validate_inv id f w r w' :
  validate id f w = (r, w') ->
  (exists b, r = Ok b /\ extends w' w [EvIsValid id b]) \/
  (exists e, r = Raise e /\ extends w' w []).
Proof.
  unfold ProcessMultipleForms.validate. intros Hv.
  apply bind_inv in Hv as [(b & w1 & Hl & Hv) | (e & Hl & ->)].
  - left. exists b. apply lift_extends in Hl.
    unfold bind, log, modify, ret in Hv. injection Hv as <- <-.
    split; [reflexivity|]. cbn. rewrite Hl, app_nil_r. reflexivity.
  - right. exists e. split; [reflexivity|]. eapply lift_extends. exact Hl.
Qed.

Lemma mapM_validate_inv forms w r w' :
  mapM (fun kf => validate (Secondary (fst kf)) (snd kf)) forms w = (r, w') ->
  exists t,
    extends w' w t /\
    Forall (fun ev => is_save ev = false) t /\
    match r with
    | Ok answers =>
        if forallb id answers
        then t = map (fun kf => EvIsValid (Secondary (fst kf)) true) forms
        else existsb is_rejection t = true
    | Raise _ => True
    end.
Proof.
  revert w r w'. induction forms as [|[k f] forms IH]; intros w r w' Hm.
  - injection Hm as <- <-. exists []. split; [apply extends_refl|]. cbn. auto.
  - cbn [mapM fst snd] in Hm.
    apply bind_inv in Hm as [(b & w1 & Hv & Hm) | (e & Hv & ->)].
    + apply validate_inv in Hv as [(b' & [= <-] & He1) | (e & [=] & _)].
      apply bind_inv in Hm as [(bs & w2 & Hrest & Hm) | (e & Hrest & ->)].
      * injection Hm as <- <-.
        apply IH in Hrest as (t & He2 & Hns & Hr).
        exists ([EvIsValid (Secondary k) b] ++ t).
        split; [eapply extends_trans; eassumption|].
        split; [constructor; [reflexivity | exact Hns]|].
        cbn. destruct b; cbn.
        -- destruct (forallb id bs); [congruence | exact Hr].
        -- reflexivity.
      * apply IH in Hrest as (t & He2 & Hns & _).
        exists ([EvIsValid (Secondary k) b] ++ t).
        split; [eapply extends_trans; eassumption|].
        split; [constructor; [reflexivity | exact Hns] | exact I].
    + apply validate_inv in Hv as [(b' & [=] & _) | (e' & _ & He1)].
      exists []. auto.
Qed.

Lemma all_valid_inv form forms w r w' :
  all_valid form forms w = (r, w') ->
  exists t,
    extends w' w t /\
    Forall (fun ev => is_save ev = false) t /\
    match r with
    | Ok true =>
        t = EvIsValid Primary true
              :: map (fun kf => EvIsValid (Secondary (fst kf)) true) forms
    | Ok false => existsb is_rejection t = true
    | Raise _ => True
    end.
Proof.
  unfold ProcessMultipleForms.all_valid. intros Ha.
  apply bind_inv in Ha as [(b & w1 & Hv & Ha) | (e & Hv & ->)].
  - apply validate_inv in Hv as [(b' & [= <-] & He1) | (e & [=] & _)].
    destruct b.
    + apply bind_inv in Ha as [(bs & w2 & Hm & Ha) | (e & Hm & ->)].
      * injection Ha as <- <-.
        apply mapM_validate_inv in Hm as (t & He2 & Hns & Hr).
        exists ([EvIsValid Primary true] ++ t).
        split; [eapply extends_trans; eassumption|].
        split; [constructor; [reflexivity | exact Hns]|].
        destruct (forallb id bs); [cbn; congruence | exact Hr].
      * apply mapM_validate_inv in Hm as (t & He2 & Hns & _).
        exists ([EvIsValid Primary true] ++ t).
        split; [eapply extends_trans; eassumption|].
        split; [constructor; [reflexivity | exact Hns] | exact I].
    + injection Ha as <- <-. exists [EvIsValid Primary false].
      split; [exact He1|]. split; [repeat constructor | reflexivity].
  - apply validate_inv in Hv as [(b' & [=] & _) | (e' & _ & He1)].
    exists []. auto.
Qed.

Lemma mapM_save_inv forms w r w' :
  mapM (fun kf => call (EvSave (Secondary (fst kf)) true) (form_save (snd kf) true))
    forms w = (r, w') ->
  exists t,
    extends w' w t /\
    Forall (fun ev => is_rejection ev = false) t /\
    match r with
    | Ok _ => t = map (fun kf => EvSave (Secondary (fst kf)) true) forms
    | Raise _ => True
    end.
Proof.
  revert w r w'. induction forms as [|[k f] forms IH]; intros w r w' Hm.
  - injection Hm as <- <-. exists []. split; [apply extends_refl|]. cbn. auto.
  - cbn [mapM fst snd] in Hm.
    apply bind_inv in Hm as [(o & w1 & Hc & Hm) | (e & Hc & ->)].
    + apply call_extends in Hc.
      apply bind_inv in Hm as [(os & w2 & Hrest & Hm) | (e & Hrest & ->)].
      * injection Hm as <- <-. apply IH in Hrest as (t & He & Hnr & ->).
        exists ([EvSave (Secondary k) true] ++ map (fun kf => EvSave (Secondary (fst kf)) true) forms).
        split; [eapply extends_trans; eassumption|].
        split; [constructor; [reflexivity | exact Hnr] | reflexivity].
      * apply IH in Hrest as (t & He & Hnr & _).
        exists ([EvSave (Secondary k) true] ++ t).
        split; [eapply extends_trans; eassumption|].
        split; [constructor; [reflexivity | exact Hnr] | exact I].
    + apply call_extends in Hc. exists [EvSave (Secondary k) true].
      split; [exact Hc|]. split; [repeat constructor | exact I].
Qed.

Lemma get_context_data_extends w r w' :
  get_context_data w = (r, w') -> extends w' w [].
Proof.
  unfold ProcessMultipleForms.get_context_data. intros Hg.
  apply bind_inv in Hg as [(fc & w1 & H1 & Hg) | (e & H1 & _)];
    apply lift_extends in H1; [|exact H1].
  apply bind_inv in Hg as [(form & w2 & H2 & Hg) | (e & H2 & _)];
    apply lift_extends in H2; [|rewrite H2, H1, app_nil_r; reflexivity].
  apply bind_inv in Hg as [(forms & w3 & H3 & Hg) | (e & H3 & _)];
    apply lift_extends in H3; [|rewrite H3, H2, H1, !app_nil_r; reflexivity].
  apply bind_inv in Hg as [(ctx & w4 & H4 & Hg) | (e & H4 & _)];
    apply lift_extends in H4; [|rewrite H4, H3, H2, H1, !app_nil_r; reflexivity].
  injection Hg as _ <-. rewrite H4, H3, H2, H1, !app_nil_r. reflexivity.
Qed.

Lemma existsb_rejection_validations forms :
  existsb is_rejection
    (EvIsValid (Obj:=Obj) Primary true
       :: map (fun kf : string * Form => EvIsValid (Secondary (fst kf)) true) forms)
  = false.
Proof. cbn. induction forms as [|kf forms IH]; [reflexivity | exact IH]. Qed.

Lemma existsb_rejection_none t :
  Forall (fun ev => is_rejection ev = false) t -> existsb is_rejection t = false.
Proof. induction 1 as [|ev t Hev _ IH]; [reflexivity|]. cbn. rewrite Hev. exact IH. Qed.

(** The branch taken when every form is valid. *)
Lemma save_block_inv form forms w (r : result (response Url Body)) w' :
  (new_obj <- call (EvSave Primary false) (form_save form false) ;;
   lift (modify (set_new_object new_obj)) ;;;
   call (EvModelSave new_obj) (obj_save new_obj) ;;;
   mapM (fun kf => call (EvSave (Secondary (fst kf)) true) (form_save (snd kf) true))
     forms ;;;
   call EvSaveM2M (save_m2m form) ;;;
   url <- lift get_success_url ;;
   ret (HttpResponseRedirect url)) w = (r, w') ->
  exists t,
    extends w' w t /\
    Forall (fun ev => is_rejection ev = false) t /\
    match r with
    | Ok resp =>
        exists new_obj s1 url s2,
          form_save form false (store w) = (Ok new_obj, s1) /\
          get_success_url s2 = (Ok url, store w') /\
          t = [EvSave Primary false; EvModelSave new_obj]
              ++ map (fun kf => EvSave (Secondary (fst kf)) true) forms
              ++ [EvSaveM2M] /\
          resp = HttpResponseRedirect url
    | Raise _ => True
    end.
Proof.
  intros Hb.
  apply bind_inv in Hb as [(new_obj & w1 & H1 & Hb) | (e & H1 & ->)].
  2:{ apply call_extends in H1. exists [EvSave Primary false].
      split; [exact H1|]. split; [repeat constructor | exact I]. }
  pose proof (call_inv _ _ _ _ _ H1) as (Hsave & _ & _). apply call_extends in H1.
  apply bind_inv in Hb as [([] & w2 & H2 & Hb) | (e & H2 & ->)].
  2:{ apply lift_inv in H2 as ([=] & _). }
  apply lift_extends in H2.
  apply bind_inv in Hb as [([] & w3 & H3 & Hb) | (e & H3 & ->)].
  2:{ apply call_extends in H3. exists [EvSave Primary false; EvModelSave new_obj].
      split; [rewrite H3, H2, H1, app_nil_r, <- app_assoc; reflexivity|].
      split; [repeat constructor | exact I]. }
  apply call_extends in H3.
  assert (H13 : extends w3 w [EvSave Primary false; EvModelSave new_obj])
    by (rewrite H3, H2, H1, app_nil_r, <- app_assoc; reflexivity).
  clear H1 H2 H3.
  apply bind_inv in Hb as [(subs & w4 & H4 & Hb) | (e & H4 & ->)].
  2:{ apply mapM_save_inv in H4 as (t & H4 & Hnr & _). eexists.
      split; [eapply extends_trans; eassumption|].
      split; [repeat constructor; exact Hnr | exact I]. }
  apply mapM_save_inv in H4 as (t & H4 & Hnr & ->).
  pose proof (extends_trans _ _ _ _ _ H13 H4) as H14. clear H13 H4.
  apply bind_inv in Hb as [([] & w5 & H5 & Hb) | (e & H5 & ->)].
  2:{ apply call_extends in H5. eexists.
      split; [eapply extends_trans; eassumption|].
      split; [|exact I]. apply Forall_app. split; [|repeat constructor].
      repeat constructor. exact Hnr. }
  apply call_extends in H5.
  pose proof (extends_trans _ _ _ _ _ H14 H5) as H15. clear H14 H5.
  assert (Hnr5 : Forall (fun ev : event Obj => is_rejection ev = false)
                   (([EvSave Primary false; EvModelSave new_obj]
                     ++ map (fun kf : string * Form => EvSave (Secondary (fst kf)) true) forms)
                    ++ [EvSaveM2M])).
  { apply Forall_app. split; [|repeat constructor]. repeat constructor. exact Hnr. }
  apply bind_inv in Hb as [(url & w6 & H6 & Hb) | (e & H6 & ->)].
  2:{ apply lift_extends in H6. eexists.
      split; [eapply extends_trans; eassumption|].
      rewrite app_nil_r. split; [exact Hnr5 | exact I]. }
  pose proof (lift_inv _ _ _ _ H6) as (Hurl & _ & _). apply lift_extends in H6.
  injection Hb as <- <-. eexists.
  split; [eapply extends_trans; eassumption|].
  rewrite app_nil_r. split; [exact Hnr5|].
  exists new_obj, (store w1), url, (store w5).
  split; [exact Hsave|]. split; [exact Hurl|].
  split; [rewrite <- app_assoc; reflexivity | reflexivity].
Qed.

(** The branch taken otherwise. *)
Lemma render_block_inv w (r : result (response Url Body)) w' :
  (ctx <- get_context_data ;;
   body <- call EvRender (render_to_response ctx) ;;
   ret (Rendered body)) w = (r, w') ->
  exists t,
    extends w' w t /\
    Forall (fun ev => is_save ev = false) t /\
    match r with
    | Ok resp => (exists body, resp = Rendered body) /\ t = [EvRender]
    | Raise _ => True
    end.
Proof.
  intros Hb.
  apply bind_inv in Hb as [(ctx & w1 & H1 & Hb) | (e & H1 & ->)].
  2:{ apply get_context_data_extends in H1. exists []. auto. }
  apply get_context_data_extends in H1.
  apply bind_inv in Hb as [(body & w2 & H2 & Hb) | (e & H2 & ->)].
  - apply call_extends in H2. injection Hb as <- <-. exists [EvRender].
    split; [rewrite H2, H1, app_nil_r; reflexivity|].
    split; [repeat constructor|]. split; [eauto | reflexivity].
  - apply call_extends in H2. exists [EvRender].
    split; [rewrite H2, H1, app_nil_r; reflexivity|].
    split; [repeat constructor | exact I].
Qed.

Lemma existsb_save_none t :
  Forall (fun ev => is_save ev = false) t -> existsb is_save t = false.
Proof. induction 1 as [|ev t Hev _ IH]; [reflexivity|]. cbn. rewrite Hev. exact IH. Qed.

(** The two ways a [post] can go: without any save, or with every form
    validated first. *)
Lemma post_inv w r w' :
  post w = (r, w') ->
  exists t,
    extends w' w t /\
    ((Forall (fun ev => is_save ev = false) t /\
      match r with
      | Ok resp =>
          existsb is_rejection t = true /\
          (exists body, resp = Rendered body) /\ last t = Some EvRender
      | Raise _ => True
      end) \/
     (existsb is_rejection t = false /\
      exists form_class s1 form s2 forms s3 t2,
        get_form_class (store w) = (Ok form_class, s1) /\
        get_form form_class s1 = (Ok form, s2) /\
        get_forms s2 = (Ok forms, s3) /\
        t = (EvIsValid Primary true
               :: map (fun kf => EvIsValid (Secondary (fst kf)) true) forms) ++ t2 /\
        match r with
        | Ok resp =>
            exists new_obj sa sb url sc,
              form_save form false sa = (Ok new_obj, sb) /\
              get_success_url sc = (Ok url, store w') /\
              t2 = [EvSave Primary false; EvModelSave new_obj]
                   ++ map (fun kf => EvSave (Secondary (fst kf)) true) forms
                   ++ [EvSaveM2M] /\
              resp = HttpResponseRedirect url
        | Raise _ => True
        end)).
Proof.
  unfold ProcessMultipleForms.post. intros Hp.
  apply bind_inv in Hp as [(fc & w1 & H1 & Hp) | (e & H1 & ->)].
  2:{ apply lift_extends in H1. exists []. split; [exact H1|]. left. auto. }
  pose proof (lift_inv _ _ _ _ H1) as (Hfc & _ & _). apply lift_extends in H1.
  apply bind_inv in Hp as [(form & w2 & H2 & Hp) | (e & H2 & ->)].
  2:{ apply lift_extends in H2. exists [].
      split; [rewrite H2, H1, app_nil_r; reflexivity|]. left. auto. }
  pose proof (lift_inv _ _ _ _ H2) as (Hform & _ & _). apply lift_extends in H2.
  apply bind_inv in Hp as [(forms & w3 & H3 & Hp) | (e & H3 & ->)].
  2:{ apply lift_extends in H3. exists [].
      split; [rewrite H3, H2, H1, !app_nil_r; reflexivity|]. left. auto. }
  pose proof (lift_inv _ _ _ _ H3) as (Hforms & _ & _). apply lift_extends in H3.
  assert (H03 : extends w3 w []) by (rewrite H3, H2, H1, !app_nil_r; reflexivity).
  clear H1 H2 H3.
  apply bind_inv in Hp as [(ok & w4 & H4 & Hp) | (e & H4 & ->)].
  2:{ apply all_valid_inv in H4 as (t & H4 & Hns & _). exists t.
      split; [exact (extends_trans _ _ _ _ _ H03 H4)|]. left. auto. }
  apply all_valid_inv in H4 as (t1 & H4 & Hns & Hok).
  pose proof (extends_trans _ _ _ _ _ H03 H4) as H04. cbn [app] in H04.
  destruct ok.
  - apply save_block_inv in Hp as (t2 & H5 & Hnr & Hr).
    exists (t1 ++ t2). split; [exact (extends_trans _ _ _ _ _ H04 H5)|].
    right. split.
    { rewrite existsb_app, Hok, existsb_rejection_validations.
      apply existsb_rejection_none. exact Hnr. }
    exists fc, (store w1), form, (store w2), forms, (store w3), t2.
    split; [exact Hfc|]. split; [exact Hform|]. split; [exact Hforms|].
    split; [rewrite Hok; reflexivity|].
    destruct r as [resp|e]; [|exact I].
    destruct Hr as (new_obj & sb & url & sc & Hsave & Hurl & Ht2 & Hresp).
    exists new_obj, (store w4), sb, url, sc. auto.
  - apply render_block_inv in Hp as (t2 & H5 & Hns2 & Hr).
    exists (t1 ++ t2). split; [exact (extends_trans _ _ _ _ _ H04 H5)|].
    left. split; [apply Forall_app; auto|].
    destruct r as [resp|e]; [|exact I].
    destruct Hr as [Hbody ->].
    split; [rewrite existsb_app, Hok; reflexivity|].
    split; [exact Hbody | apply last_snoc].
Qed.

(** C2: in one POST a rejected validation and a save never both occur.
    When some [is_valid()] returned [False], no form is saved, the primary
    object is not saved, and the response (if one is returned) is the
    re-rendering of the forms; when anything is saved, the primary form and
    every secondary form of the mapping had been validated, each with
    answer [True], before. *)
Theorem post_saves_all_or_nothing w r w' t :
  post w = (r, w') ->
  trace w' = trace w ++ t ->
  existsb is_rejection t && existsb is_save t = false /\
  (if existsb is_rejection t then
     match r with
     | Ok resp => (exists body, resp = Rendered body) /\ last t = Some EvRender
     | Raise _ => True
     end
   else True) /\
  (if existsb is_save t then
     exists form_class s1 form s2 forms s3 t2,
       get_form_class (store w) = (Ok form_class, s1) /\
       get_form form_class s1 = (Ok form, s2) /\
       get_forms s2 = (Ok forms, s3) /\
       t = (EvIsValid Primary true
              :: map (fun kf => EvIsValid (Secondary (fst kf)) true) forms) ++ t2
   else True).
Proof.
  intros Hp Ht. apply post_inv in Hp as (t0 & Ht0 & Hcases).
  assert (t = t0) as -> by (rewrite Ht in Ht0; apply app_inv_head in Ht0; exact Ht0).
  destruct Hcases as [[Hns Hr] | (Hnr & fc & s1 & form & s2 & forms & s3 & t2 & Hrest)].
  - rewrite (existsb_save_none _ Hns), andb_false_r. split; [reflexivity|].
    split; [|exact I].
    destruct (existsb is_rejection t0); [|exact I].
    destruct r as [resp|e]; [|exact I]. destruct Hr as (_ & Hbody & Hlast). auto.
  - rewrite Hnr. split; [reflexivity|]. split; [exact I|].
    destruct (existsb is_save t0); [|exact I].
    destruct Hrest as (Hfc & Hform & Hforms & Heq & _).
    exists fc, s1, form, s2, forms, s3, t2. auto.
Qed.

(** C3: a POST that returns with every validation answered [True] has made
    its calls in this order: the validations, the primary form's deferred
    save, the save of the object that returned, the secondary forms' saves
    in the order of the forms mapping, the primary form's [save_m2m]; and
    its response is the redirect to the success URL. *)
Theorem post_valid_order w resp w' t :
  post w = (Ok resp, w') ->
  trace w' = trace w ++ t ->
  existsb is_rejection t = false ->
  exists form_class s1 form s2 forms s3 new_obj sa sb url sc,
    get_form_class (store w) = (Ok form_class, s1) /\
    get_form form_class s1 = (Ok form, s2) /\
    get_forms s2 = (Ok forms, s3) /\
    form_save form false sa = (Ok new_obj, sb) /\
    get_success_url sc = (Ok url, store w') /\
    t = (EvIsValid Primary true
           :: map (fun kf => EvIsValid (Secondary (fst kf)) true) forms)
        ++ [EvSave Primary false; EvModelSave new_obj]
        ++ map (fun kf => EvSave (Secondary (fst kf)) true) forms
        ++ [EvSaveM2M] /\
    resp = HttpResponseRedirect url.
Proof.
  intros Hp Ht Hvalid. apply post_inv in Hp as (t0 & Ht0 & Hcases).
  assert (t = t0) as -> by (rewrite Ht in Ht0; apply app_inv_head in Ht0; exact Ht0).
  destruct Hcases as [[_ (Hrej & _)] | (_ & fc & s1 & form & s2 & forms & s3 & t2 & Hrest)].
  - congruence.
  - destruct Hrest as (Hfc & Hform & Hforms & Heq & new_obj & sa & sb & url & sc & Hrun).
    destruct Hrun as (Hsave & Hurl & -> & ->).
    exists fc, s1, form, s2, forms, s3, new_obj, sa, sb, url, sc.
    repeat split; first [assumption | reflexivity].
Qed.

End ProcessMultipleFormsProperties.

(** With the second secondary form invalid nothing reaches the host state
    and the forms are rendered again. *)
Lemma post_saves_all_or_nothing_witness :
  let secondary := [("child", (true, 2)); ("toy", (false, 3))] in
  let t := [ ProcessMultipleForms.EvIsValid ProcessMultipleForms.Primary true;
             ProcessMultipleForms.EvIsValid (ProcessMultipleForms.Secondary "child") true;
             ProcessMultipleForms.EvIsValid (ProcessMultipleForms.Secondary "toy") false;
             ProcessMultipleForms.EvRender ] in
  exists body,
    Toy.toy_post (true, 1) secondary Toy.fresh_view
    = (Ok (ProcessMultipleForms.Rendered body),
       World t ∅ (ProcessMultipleForms.View Missing [])) /\
    existsb ProcessMultipleForms.is_save t = false.
Proof.
  intros secondary t.
  destruct (Toy.toy_post (true, 1) secondary Toy.fresh_view) as [r w'] eqn:Hrun.
  pose proof (post_saves_all_or_nothing _ _ _ _ _ _ _ _ _ _ _ r w' t Hrun) as Hspec.
  vm_compute in Hrun. injection Hrun as <- <-.
  destruct (Hspec eq_refl) as (Hnone & _ & _).
  eexists. split; [reflexivity|]. exact Hnone.
Defined.

(** With every form valid the primary object 1 is written first, then the
    objects 2 and 3 of the secondary forms, and the response redirects. *)
Lemma post_valid_order_witness :
  let secondary := [("child", (true, 2)); ("toy", (true, 3))] in
  exists t,
    Toy.toy_post (true, 1) secondary Toy.fresh_view
    = (Ok (ProcessMultipleForms.HttpResponseRedirect "/done"),
       World t ∅ (ProcessMultipleForms.View (Has 1) [1; 2; 3])) /\
    t = [ ProcessMultipleForms.EvIsValid ProcessMultipleForms.Primary true;
          ProcessMultipleForms.EvIsValid (ProcessMultipleForms.Secondary "child") true;
          ProcessMultipleForms.EvIsValid (ProcessMultipleForms.Secondary "toy") true;
          ProcessMultipleForms.EvSave ProcessMultipleForms.Primary false;
          ProcessMultipleForms.EvModelSave 1;
          ProcessMultipleForms.EvSave (ProcessMultipleForms.Secondary "child") true;
          ProcessMultipleForms.EvSave (ProcessMultipleForms.Secondary "toy") true;
          ProcessMultipleForms.EvSaveM2M ].
Proof.
  intros secondary.
  set (t0 := [ ProcessMultipleForms.EvIsValid (Obj:=nat) ProcessMultipleForms.Primary true;
               ProcessMultipleForms.EvIsValid (ProcessMultipleForms.Secondary "child") true;
               ProcessMultipleForms.EvIsValid (ProcessMultipleForms.Secondary "toy") true;
               ProcessMultipleForms.EvSave ProcessMultipleForms.Primary false;
               ProcessMultipleForms.EvModelSave 1;
               ProcessMultipleForms.EvSave (ProcessMultipleForms.Secondary "child") true;
               ProcessMultipleForms.EvSave (ProcessMultipleForms.Secondary "toy") true;
               ProcessMultipleForms.EvSaveM2M ]).
  exists t0.
  destruct (Toy.toy_post (true, 1) secondary Toy.fresh_view) as [[resp|e] w'] eqn:Hrun.
  - pose proof (post_valid_order _ _ _ _ _ _ _ _ _ _ _ _ _ t0 Hrun) as Hspec.
    vm_compute in Hrun. injection Hrun as <- <-.
    split; [reflexivity|].
    destruct (Hspec eq_refl eq_refl)
      as (fc & s1 & form & s2 & forms & s3 & o & sa & sb & url & sc & H).
    destruct H as (_ & Hform & Hforms & Hsave & _ & Ht & _).
    injection Hform as <- _. injection Hforms as <- _.
    unfold Toy.toy_form_save, ret in Hsave. cbn [snd] in Hsave.
    injection Hsave as <- _. exact Ht.
  - vm_compute in Hrun. discriminate Hrun.
Defined.

(** ** [MultiBoundObjectFormsMixin.get_forms] *)

Section MultiBoundObjectFormsProperties.
Import BoundForm BoundFormset MultiBoundObjectForms.
Context {V H Args FormState : Type}.

Abbreviation view := (@MultiBoundObjectForms.view V H).

Context `{!Host view (option V) Args FormState}.

Abbreviation val := (pyval (base_form view (option V) Args FormState)).
Abbreviation query_set := (@BoundFormset.query_set view (option V) Args FormState).
Abbreviation formset := (@BoundFormset.formset view (option V) Args FormState).
Abbreviation model_conf := (@MultiBoundObjectForms.model_conf V H Args FormState).

Variable form_mixin_get_form_kwargs : M view (gmap string val).

Abbreviation get_forms_entry := (get_forms_entry form_mixin_get_form_kwargs).

Implicit Types (w : world event view) (forms : gmap string formset).
Implicit Types (conf : model_conf).

(** The scan keeps the name of the last foreign key it meets. *)
Lemma detect_foreign_key_last fs :
  detect_foreign_key fs = last (map field_name (List.filter is_foreign_key fs)).
Proof.
  unfold detect_foreign_key.
  assert (Hgen : forall acc,
            fold_left
              (fun foreign_key_field f =>
                 if is_foreign_key f then Some (field_name f) else foreign_key_field)
              fs acc
            = match last (map field_name (List.filter is_foreign_key fs)) with
              | Some name => Some name
              | None => acc
              end).
  { induction fs as [|f fs IH]; intros acc; [reflexivity|].
    cbn [fold_left List.filter]. rewrite IH.
    destruct (is_foreign_key f); [|reflexivity]. cbn [map].
    rewrite last_cons. destruct (last _); reflexivity. }
  rewrite Hgen. destruct (last _); reflexivity.
Qed.

Lemma detect_foreign_key_none fs :
  Forall (fun f => is_foreign_key f = false) fs -> detect_foreign_key fs = None.
Proof.
  intros Hno. unfold detect_foreign_key.
  induction Hno as [|f fs Hf _ IH]; [reflexivity|]. cbn. rewrite Hf. exact IH.
Qed.

(** Without a field name and without a foreign key on the model the entry
    is a configuration error. *)
Lemma autodetect_without_foreign_key model w :
  Forall (fun f => is_foreign_key f = false) (fields model) ->
  resolve_field model None w = (Raise ImproperlyConfigured, w).
Proof.
  intros Hno. unfold resolve_field. rewrite (detect_foreign_key_none _ Hno).
  reflexivity.
Qed.

(** Reading an entry touches nothing, and gives no queryset when the entry
    names none. *)
Lemma read_conf_inv conf w model foreign_key_field queryset factory_kwargs w' :
  read_conf conf w = (Ok (model, foreign_key_field, queryset, factory_kwargs), w') ->
  w' = w /\
  match conf with
  | ConfModel m => model = m /\ foreign_key_field = None /\ queryset = None
  | ConfDict d =>
      d !! "model" = Some (PModel model) /\
      (foreign_key_field = None \/ d !! "field_name" = (PStr <$> foreign_key_field)) /\
      (d !! "queryset" = None \/ d !! "queryset" = Some PNone -> queryset = None)
  end.
Proof.
  unfold read_conf, bind, ret, raise. destruct conf as [m|d].
  - intros [= <- <- <- <- <-]. auto.
  - intros Hr. repeat case_match; simplify_eq; repeat split; auto;
      intros [?|?]; simplify_eq; reflexivity.
Qed.

Lemma resolve_field_inv model foreign_key_field w field w' :
  resolve_field model foreign_key_field w = (Ok field, w') ->
  w' = w /\
  match foreign_key_field with
  | Some f => field = f
  | None => detect_foreign_key (fields model) = Some field
  end.
Proof.
  unfold resolve_field, ret, raise. intros Hr.
  repeat case_match; simplify_eq; auto.
Qed.

Lemma resolve_queryset_default model field w (queryset : query_set) w' :
  resolve_queryset model field None w = (Ok queryset, w') ->
  w' = w /\
  queryset = match object (store w) with
             | Missing | PyNone => QNone model
             | Has o => QFilter model field (Some o)
             end.
Proof.
  unfold resolve_queryset, bind, lift, get, ret. destruct w as [t h s]. cbn.
  destruct (object s); intros [= <- <-]; auto.
Qed.

Lemma bound_object_formset_inv
    _model (queryset : query_set) field initial form factory_kwargs w c w' :
  bound_object_formset _model queryset field initial form factory_kwargs w
  = (Ok c, w') ->
  c = Construct _model queryset field initial form factory_kwargs.
Proof.
  unfold bound_object_formset. intros Hb.
  apply bind_inv_ok in Hb as (u & w1 & _ & Hb). injection Hb as <- _. reflexivity.
Qed.

Lemma call_bound_object_formset_inv
    model (queryset : query_set) field initial factory_kwargs w c w' :
  call_bound_object_formset model queryset field initial factory_kwargs w
  = (Ok c, w') ->
  c_model c = model /\ c_queryset c = queryset /\ c_field c = field.
Proof.
  unfold call_bound_object_formset. destruct (existsb _ _); [intros [=]|].
  intros Hc. apply bind_inv_ok in Hc as (form & w1 & _ & Hc).
  apply bound_object_formset_inv in Hc as ->. auto.
Qed.

Lemma construct_inv (c : @constructor view (option V) Args FormState)
    args kwargs w fs w' :
  construct c args kwargs w = (Ok fs, w') ->
  fs_model fs = c_model c /\ fs_queryset fs = c_queryset c /\
  closure_field (fs_form fs) = c_field c.
Proof.
  unfold construct. intros Hc.
  apply bind_inv_ok in Hc as (F & w1 & HF & Hc).
  apply bound_object_form_inv in HF as (Hfield & _).
  destruct (c_factory_kwargs c !! "model"); [discriminate Hc|].
  injection Hc as <- _. auto.
Qed.

(** C7: for an entry of [forms_models] that names no queryset, the formset
    stored for the entry's model is built on [model.objects.none()] when
    the view has no [object] or its [object] is [None], and on
    [model.objects.filter(field=self.object)] otherwise, [field] being the
    parent field of the formset's forms: the entry's field name, or the one
    found on the model. *)
Theorem default_queryset_of_entry conf forms w forms' w' :
  match conf with
  | ConfModel _ => True
  | ConfDict d => d !! "queryset" = None \/ d !! "queryset" = Some PNone
  end ->
  get_forms_entry conf forms w = (Ok forms', w') ->
  exists model fs,
    match conf with
    | ConfModel m => model = m
    | ConfDict d => d !! "model" = Some (PModel model)
    end /\
    forms' !! lower (object_name model) = Some fs /\
    fs_model fs = model /\
    (match conf with
     | ConfDict d =>
         d !! "field_name" = Some (PStr (closure_field (fs_form fs))) \/
         detect_foreign_key (fields model) = Some (closure_field (fs_form fs))
     | ConfModel _ =>
         detect_foreign_key (fields model) = Some (closure_field (fs_form fs))
     end) /\
    fs_queryset fs = match object (store w) with
                     | Missing | PyNone => QNone model
                     | Has o => QFilter model (closure_field (fs_form fs)) (Some o)
                     end.
Proof.
  intros Hnone He. unfold MultiBoundObjectForms.get_forms_entry in He.
  apply bind_inv_ok in He as ([[[model fk] qs] kw] & w1 & Hread & He).
  apply read_conf_inv in Hread as [-> Hconf].
  apply bind_inv_ok in He as (field & w2 & Hfield & He).
  apply resolve_field_inv in Hfield as [-> Hfield].
  assert (qs = None) as ->.
  { destruct conf as [m|d]; [apply Hconf | apply Hconf, Hnone]. }
  apply bind_inv_ok in He as (queryset & w3 & Hq & He).
  apply resolve_queryset_default in Hq as [-> ->].
  apply bind_inv_ok in He as (make & w4 & Hmake & He).
  apply call_bound_object_formset_inv in Hmake as (Hm & Hqs & Hf).
  apply bind_inv_ok in He as (kwargs & w5 & _ & He).
  destruct (kwargs !! "prefix"); [discriminate He|].
  apply bind_inv_ok in He as (fs & w6 & Hfs & He).
  apply construct_inv in Hfs as (Hfm & Hfq & Hff).
  injection He as <- _.
  rewrite Hm in Hfm. rewrite Hqs in Hfq. rewrite Hf in Hff.
  exists model, fs.
  split; [destruct conf; apply Hconf|].
  split; [apply lookup_insert_eq|]. split; [exact Hfm|].
  rewrite Hff. split; [|exact Hfq].
  destruct conf as [m|d].
  - destruct Hconf as (_ & -> & _). exact Hfield.
  - destruct Hconf as (_ & [-> | Hname] & _); [right; exact Hfield|].
    destruct fk as [f|]; [|right; exact Hfield].
    left. rewrite Hname, Hfield. reflexivity.
Qed.

(** [get_forms] runs the loop body on the entries in order; the entry
    processed last is the one whose formset stays under its key. *)
Lemma get_forms_loop_app confs1 confs2 forms w :
  get_forms_loop form_mixin_get_form_kwargs (confs1 ++ confs2) forms w
  = bind (get_forms_loop form_mixin_get_form_kwargs confs1 forms)
         (get_forms_loop form_mixin_get_form_kwargs confs2) w.
Proof.
  revert forms w. induction confs1 as [|conf confs1 IH]; intros forms w.
  - reflexivity.
  - cbn [app get_forms_loop]. unfold bind.
    destruct (get_forms_entry conf forms w) as [[forms1|e] w1]; [|reflexivity].
    rewrite IH. reflexivity.
Qed.

End MultiBoundObjectFormsProperties.

(** On a view whose object is 3, the bare entry [child] gets the formset
    over [Child.objects.filter(parent=3)]. *)
Lemma default_queryset_of_entry_witness :
  exists forms' w' fs,
    Toy.get_forms_entry (MultiBoundObjectForms.ConfModel Toy.child) ∅
      (Toy.view_world (Has 3%Z)) = (Ok forms', w') /\
    forms' !! "child" = Some fs /\
    BoundFormset.fs_queryset fs
    = BoundFormset.QFilter Toy.child "parent" (Some 3%Z).
Proof.
  destruct (Toy.get_forms_entry (MultiBoundObjectForms.ConfModel Toy.child) ∅
              (Toy.view_world (Has 3%Z))) as [[forms'|e] w'] eqn:Hrun.
  - destruct (default_queryset_of_entry _
                (MultiBoundObjectForms.ConfModel Toy.child) _ _ _ _ I Hrun)
      as (model & fs & -> & Hlook & _ & Hfield & Hq).
    exists forms', w', fs. split; [reflexivity|]. split; [exact Hlook|].
    cbn in Hfield. injection Hfield as Hname. rewrite <- Hname in Hq. exact Hq.
  - vm_compute in Hrun. discriminate Hrun.
Defined.

(** C6, where the code departs from it: on a model that declares the
    foreign keys [a] and then [b], the field the mixin detects is [b], the
    last one, not the first; the formset built for the bare entry binds
    [b].  (The comment in the code and the class docstring both say "the
    first ForeignKey".) *)
Theorem autodetect_takes_last_foreign_key :
  MultiBoundObjectForms.detect_foreign_key (fields Toy.link) = Some "b" /\
  exists forms' w' fs,
    Toy.get_forms_entry (MultiBoundObjectForms.ConfModel Toy.link) ∅
      (Toy.view_world Missing) = (Ok forms', w') /\
    forms' !! "link" = Some fs /\
    BoundForm.closure_field (BoundFormset.fs_form fs) = "b".
Proof.
  split; [reflexivity|].
  do 3 eexists. split; [vm_compute; reflexivity|].
  split; [vm_compute; reflexivity | reflexivity].
Qed.

(** * Further properties *)

(** ** [bound_object_form], continued *)

Section BoundFormMore.
Import BoundForm.
Context {S Value Args FormState : Type} `{!Host S Value Args FormState}.

Implicit Types (w : world event S) (initial : bound_value S Value).
Implicit Types (F : @bound_form S Value Args FormState).
Implicit Types (f : base_form S Value Args FormState).

(** X1: when a form class is given, the [_model] argument plays no part:
    the produced class is the same for every [_model], its superclass is
    the given class and its [Meta.model] is that class's [Meta.model]. *)
Theorem bound_form_model_from_base_form m1 m2 field initial f w F w' :
  bound_object_form m1 field initial (Some f) w = (Ok F, w') ->
  bound_object_form m2 field initial (Some f) w = (Ok F, w') /\
  superclass F = f /\
  bf_meta_model f = Some (meta_model F).
Proof.
  unfold bound_object_form, bind, ret, raise. intros Hr.
  repeat case_match; simplify_eq; auto.
Qed.

(** X2: the exclusions of the given form class are kept, in their order,
    at the front of the produced class's exclusions; the field is added
    behind them only when it is not among them, so a list without
    repetitions stays one. *)
Theorem bound_form_exclude_merge _model field initial f names w F w' :
  bf_meta_exclude f = ExSeq names ->
  bound_object_form _model field initial (Some f) w = (Ok F, w') ->
  names `prefix_of` meta_exclude F /\
  (forall name, name ∈ meta_exclude F <-> name ∈ names \/ name = field) /\
  occurrences field (meta_exclude F) = max 1 (occurrences field names) /\
  (NoDup names -> NoDup (meta_exclude F)).
Proof.
  intros Hex. unfold bound_object_form, bind, ret, raise. rewrite Hex.
  intros Hr. case_bool_decide as Hin; destruct (bf_meta_model f); simplify_eq; cbn.
  - split; [reflexivity|].
    split; [intros name; split; [auto | intros [?| ->]; assumption]|].
    split; [|auto].
    apply list_elem_of_In, (count_occ_In String.string_dec) in Hin.
    unfold occurrences. lia.
  - split; [apply prefix_app_r; reflexivity|].
    split; [intros name; rewrite elem_of_app, list_elem_of_singleton; reflexivity|].
    split.
    + unfold occurrences. rewrite count_occ_app.
      rewrite (proj1 (count_occ_not_In String.string_dec names field)).
      * cbn. destruct (string_dec field field); [reflexivity | congruence].
      * rewrite <- list_elem_of_In. exact Hin.
    + intros Hnd. apply NoDup_app. split; [exact Hnd|].
      split; [|apply NoDup_singleton]. intros x Hx Hx'.
      apply list_elem_of_singleton in Hx'. subst. contradiction.
Qed.

(** X3: whether the factory returns depends on the [Meta] of the form class
    alone: [exclude = None] is a [TypeError] (it is tested with [in]), a
    [Meta] without [model] an [AttributeError], and otherwise a class is
    returned; in no case is anything changed. *)
Theorem bound_form_failures _model field initial f w :
  match bf_meta_exclude f, bf_meta_model f with
  | ExNone, _ =>
      bound_object_form _model field initial (Some f) w = (Raise TypeError, w)
  | _, None =>
      bound_object_form _model field initial (Some f) w = (Raise AttributeError, w)
  | _, Some m =>
      exists F, bound_object_form _model field initial (Some f) w = (Ok F, w) /\
                meta_model F = m
  end.
Proof.
  unfold bound_object_form, bind, ret, raise.
  destruct (bf_meta_exclude f) as [| |names]; [| |case_bool_decide];
    destruct (bf_meta_model f); try reflexivity; eexists; split; reflexivity.
Qed.

(** X4: a [save] that returns has handed to [Model.save] the instance
    with the parent field already set, when [commit] is true; when
    [commit] is false [Model.save] is not run at all: the host state is as
    the bound value's resolution left it and the instance keeps the primary
    key the superclass's save gave it. *)
Theorem save_commits_bound_instance F self commit w obj w' :
  save F self commit w = (Ok obj, w') ->
  exists obj0 s1 v w2,
    bf_save (superclass F) self false (store w) = (Ok obj0, s1) /\
    resolve (closure_initial F) (World (trace w) (heap w) s1) = (Ok v, w2) /\
    if commit then
      exists pk,
        model_save (setattr obj0 (closure_field F) v) (store w2)
        = (Ok pk, store w') /\
        obj = with_pk (setattr obj0 (closure_field F) v) pk
    else
      w' = w2 /\ obj = setattr obj0 (closure_field F) v /\
      inst_pk obj = inst_pk obj0.
Proof.
  unfold save. intros Hs.
  apply bind_inv_ok in Hs as (obj0 & wa & Hbase & Hs).
  apply bind_inv_ok in Hs as (v & wb & Hres & Hs).
  pose proof (lift_inv _ _ _ _ Hbase) as (Hb & Ht & Hh).
  exists obj0, (store wa), v, wb. split; [exact Hb|].
  split; [rewrite <- Ht, <- Hh; destruct wa; exact Hres|].
  destruct commit.
  - apply bind_inv_ok in Hs as (pk & wc & Hms & Hs).
    apply lift_inv in Hms as (Hms & _ & _). injection Hs as <- <-.
    exists pk. split; [exact Hms | reflexivity].
  - injection Hs as <- <-. auto.
Qed.

(** X5: when the producer of the bound value raises, [save] raises the
    same exception after that one call, and [Model.save] is not reached:
    the host state is the one the producer left. *)
Theorem save_fails_with_producer F self commit p w obj0 s1 e s2 :
  closure_initial F = Producer p ->
  bf_save (superclass F) self false (store w) = (Ok obj0, s1) ->
  p s1 = (Raise e, s2) ->
  save F self commit w
  = (Raise e, World (trace w ++ [EvProducer]) (heap w) s2).
Proof.
  intros Hinit Hbase Hp. unfold save. rewrite Hinit.
  rewrite (bind_ok _ _ _ obj0 (World (trace w) (heap w) s1))
    by (unfold lift; rewrite Hbase; reflexivity).
  apply bind_raise. cbn [resolve]. unfold call, bind, log, modify, lift. cbn.
  rewrite Hp. reflexivity.
Qed.

End BoundFormMore.

(** With [named_form] given, the model argument [parent] is not used. *)
Lemma bound_form_model_from_base_form_witness :
  exists F,
    Toy.bound_object_form Toy.child "parent" (Fixed 7%Z) (Some ToyForms.named_form) Toy.w0
    = (Ok F, Toy.w0) /\
    Toy.bound_object_form Toy.parent "parent" (Fixed 7%Z) (Some ToyForms.named_form) Toy.w0
    = (Ok F, Toy.w0) /\
    BoundForm.meta_model F = Toy.child.
Proof.
  eexists. split; [reflexivity|].
  destruct (@bound_form_model_from_base_form Toy.db Z Z Z Toy.toy_host
              Toy.child Toy.parent "parent" (Fixed 7%Z) ToyForms.named_form
              Toy.w0 _ Toy.w0 eq_refl) as (Hsame & _ & _).
  split; [exact Hsame | reflexivity].
Defined.

(** [["name"]] becomes [["name"; "parent"]]. *)
Lemma bound_form_exclude_merge_witness :
  exists F,
    Toy.bound_object_form Toy.child "parent" (Fixed 7%Z) (Some ToyForms.named_form) Toy.w0
    = (Ok F, Toy.w0) /\
    BoundForm.meta_exclude F = ["name"; "parent"] /\
    NoDup (BoundForm.meta_exclude F).
Proof.
  eexists. split; [reflexivity|]. split; [reflexivity|].
  destruct (@bound_form_exclude_merge Toy.db Z Z Z Toy.toy_host
              Toy.child "parent" (Fixed 7%Z) ToyForms.named_form ["name"]
              Toy.w0 _ Toy.w0 eq_refl eq_refl) as (_ & _ & _ & Hnd).
  apply Hnd. apply NoDup_singleton.
Defined.

(** A committed save writes the row with the bound value 7 in it. *)
Lemma save_commits_bound_instance_witness :
  exists obj w',
    Toy.save (Toy.child_form (Fixed 7%Z)) 99%Z true Toy.w0 = (Ok obj, w') /\
    store w' = [setattr (Toy.submitted 99) "parent" 7%Z] /\
    inst_pk obj = Some 1%Z.
Proof.
  destruct (Toy.save (Toy.child_form (Fixed 7%Z)) 99%Z true Toy.w0)
    as [[obj|e] w'] eqn:Hrun.
  - destruct (@save_commits_bound_instance Toy.db Z Z Z Toy.toy_host
                _ _ _ _ _ _ Hrun) as (obj0 & s1 & v & w2 & Hbase & Hres & pk & Hms & ->).
    exists (with_pk (setattr obj0 "parent" v) pk), w'. split; [reflexivity|].
    cbn in Hbase. injection Hbase as <- <-.
    cbn in Hres. injection Hres as <- <-.
    cbn in Hms. injection Hms as <- <-. split; reflexivity.
  - vm_compute in Hrun. discriminate Hrun.
Defined.

(** A save whose parent lookup fails writes nothing. *)
Lemma save_fails_with_producer_witness :
  Toy.save (Toy.child_form (Producer ToyForms.no_parent)) 99%Z true Toy.w0
  = (Raise (HostError 404), World [BoundForm.EvProducer] ∅ []).
Proof.
  apply (@save_fails_with_producer Toy.db Z Z Z Toy.toy_host
           (Toy.child_form (Producer ToyForms.no_parent)) 99%Z true
           ToyForms.no_parent Toy.w0 (Toy.submitted 99) [] (HostError 404) []);
    reflexivity.
Defined.

(** ** [bound_object_formset], continued *)

Section BoundFormsetMore.
Import BoundForm BoundFormset.
Context {S Value Args FormState : Type} `{!Host S Value Args FormState}.

Abbreviation val := (pyval (base_form S Value Args FormState)).
Implicit Types (w : world event S) (factory_kwargs kwargs : gmap string val).
Implicit Types (queryset : @query_set S Value Args FormState).
Implicit Types (c : @constructor S Value Args FormState).

(** X6: an ['exclude'] option that is a tuple is left alone when it names
    the field; when it does not, the call fails with [AttributeError] (a
    tuple has no [append]) and nothing is changed. *)
Theorem formset_exclude_tuple
    _model queryset field initial form factory_kwargs names w :
  factory_kwargs !! "exclude" = Some (PTuple names) ->
  bound_object_formset _model queryset field initial form factory_kwargs w
  = if bool_decide (field ∈ names)
    then (Ok (Construct _model queryset field initial form factory_kwargs), w)
    else (Raise AttributeError, w).
Proof.
  intros Hkw. unfold bound_object_formset. rewrite Hkw.
  unfold bind, contains, append, ret, raise. case_bool_decide; reflexivity.
Qed.

Lemma construct_inv' c args kwargs w fs w' :
  construct c args kwargs w = (Ok fs, w') ->
  w' = w /\
  fs = Formset (c_model c) (fs_form fs) (c_factory_kwargs c) args (c_queryset c)
         (delete "queryset" kwargs) /\
  bound_object_form (c_model c) (c_field c) (c_initial c) (c_form c) w
  = (Ok (fs_form fs), w).
Proof.
  unfold construct. intros Hc.
  apply bind_inv_ok in Hc as (F & w1 & HF & Hc).
  pose proof (bound_object_form_pure _ _ _ _ _ _ _ HF) as ->.
  destruct (c_factory_kwargs c !! "model"); [discriminate Hc|].
  injection Hc as <- <-. auto.
Qed.

(** X7: the formset is built on the queryset the factory was given: a
    ['queryset'] argument passed to the constructor is replaced by it. *)
Theorem construct_overrides_queryset c args kwargs w fs w' q :
  construct c args kwargs w = (Ok fs, w') ->
  fs_queryset fs = c_queryset c /\
  construct c args (<["queryset" := q]> kwargs) w = (Ok fs, w').
Proof.
  intros Hc. pose proof (construct_inv' _ _ _ _ _ _ Hc) as (-> & Hfs & HF).
  split; [rewrite Hfs; reflexivity|].
  unfold construct in *. rewrite delete_insert_eq. exact Hc.
Qed.

(** X8: after the factory was called with an ['exclude'] list, a formset
    it constructs is excluded from the parent field twice over: the list
    passed on to [modelformset_factory] is the caller's list, which now
    names the field, and the form class names it in its [Meta.exclude]. *)
Theorem formset_excludes_field
    _model queryset field initial form factory_kwargs l names w c w1
    args kwargs fs w2 :
  factory_kwargs !! "exclude" = Some (PListRef l) ->
  heap w !! l = Some names ->
  bound_object_formset _model queryset field initial form factory_kwargs w
  = (Ok c, w1) ->
  construct c args kwargs w1 = (Ok fs, w2) ->
  fs_factory_kwargs fs !! "exclude" = Some (PListRef l) /\
  (exists names', heap w2 !! l = Some names' /\ field ∈ names') /\
  field ∈ meta_exclude (fs_form fs).
Proof.
  intros Hkw Hl Hb Hc.
  rewrite (bound_object_formset_exclude _ _ _ _ _ _ _ _ _ Hkw Hl) in Hb.
  injection Hb as <- <-.
  apply construct_inv' in Hc as (-> & Hfs & HF).
  apply bound_object_form_inv in HF as (_ & _ & _ & Hex).
  split; [rewrite Hfs; exact Hkw|]. split; [|exact Hex].
  exists (excluded field names). cbn. split; [apply lookup_insert_eq|].
  unfold excluded. case_bool_decide; [assumption|].
  apply elem_of_app. right. apply list_elem_of_singleton. reflexivity.
Qed.

(** X9: the form class is only looked at when a formset is constructed.
    With a form class whose [Meta.exclude] is [None] the factory returns
    its constructor as usual; every call of the constructor then fails
    with [TypeError]. *)
Theorem formset_error_at_construction
    _model queryset field initial f factory_kwargs args kwargs w :
  bf_meta_exclude f = ExNone ->
  factory_kwargs !! "exclude" = None ->
  bound_object_formset _model queryset field initial (Some f) factory_kwargs w
  = (Ok (Construct _model queryset field initial (Some f) factory_kwargs), w) /\
  construct (Construct _model queryset field initial (Some f) factory_kwargs)
    args kwargs w = (Raise TypeError, w).
Proof.
  intros Hex Hkw. split.
  - unfold bound_object_formset. rewrite Hkw. reflexivity.
  - unfold construct. apply bind_raise. cbn.
    unfold bound_object_form, bind, raise. rewrite Hex. reflexivity.
Qed.

End BoundFormsetMore.

(** A tuple that lacks the field stops the factory. *)
Lemma formset_exclude_tuple_witness :
  Toy.bound_object_formset Toy.child (BoundFormset.QNone Toy.child) "parent"
    (Fixed 7%Z) None (ToyForms.tuple_options ["name"]) Toy.w0
  = (Raise AttributeError, Toy.w0).
Proof.
  apply (formset_exclude_tuple (S:=Toy.db) (Value:=Z) (Args:=Z) (FormState:=Z)
           Toy.child (BoundFormset.QNone Toy.child) "parent" (Fixed 7%Z) None
           (ToyForms.tuple_options ["name"]) ["name"] Toy.w0).
  reflexivity.
Defined.

Lemma construct_overrides_queryset_witness :
  exists fs,
    ToyForms.construct_formset
      (BoundFormset.Construct Toy.child (BoundFormset.QNone Toy.child) "parent"
         (Fixed 7%Z) None ∅)
      [] {[ "queryset" := PObject 5 ]} Toy.w0 = (Ok fs, Toy.w0) /\
    BoundFormset.fs_queryset fs = BoundFormset.QNone Toy.child.
Proof.
  destruct (ToyForms.construct_formset
              (BoundFormset.Construct Toy.child (BoundFormset.QNone Toy.child)
                 "parent" (Fixed 7%Z) None ∅) [] ∅ Toy.w0)
    as [[fs|e] w'] eqn:Hrun.
  - destruct (construct_overrides_queryset _ _ _ _ _ _ (PObject 5) Hrun)
      as [Hq Hsame].
    vm_compute in Hrun. injection Hrun as <- <-.
    eexists. split; [exact Hsame | exact Hq].
  - vm_compute in Hrun. discriminate Hrun.
Defined.

Lemma formset_excludes_field_witness :
  exists c w1 fs w2,
    Toy.formset_call (Toy.with_list ["name"]) = (Ok c, w1) /\
    ToyForms.construct_formset c [] ∅ w1 = (Ok fs, w2) /\
    heap w2 !! 0 = Some ["name"; "parent"] /\
    "parent" ∈ BoundForm.meta_exclude (BoundFormset.fs_form fs).
Proof.
  destruct (Toy.formset_call (Toy.with_list ["name"])) as [[c|e] w1] eqn:Hcall;
    [|vm_compute in Hcall; discriminate Hcall].
  destruct (ToyForms.construct_formset c [] ∅ w1) as [[fs|e] w2] eqn:Hcons.
  - destruct (formset_excludes_field (S:=Toy.db) (Value:=Z) (Args:=Z) (FormState:=Z)
                Toy.child (BoundFormset.QNone Toy.child) "parent" (Fixed 7%Z) None
                Toy.options 0 ["name"] (Toy.with_list ["name"]) c w1 [] ∅ fs w2
                eq_refl eq_refl Hcall Hcons)
      as (_ & _ & Hform).
    exists c, w1, fs, w2. split; [reflexivity|]. split; [exact Hcons|].
    split; [|exact Hform].
    vm_compute in Hcall. injection Hcall as <- <-.
    vm_compute in Hcons. injection Hcons as <- <-. reflexivity.
  - vm_compute in Hcall. injection Hcall as <- <-.
    vm_compute in Hcons. discriminate Hcons.
Defined.

Lemma formset_error_at_construction_witness :
  ToyForms.construct_formset
    (BoundFormset.Construct Toy.child (BoundFormset.QNone Toy.child) "parent"
       (Fixed 7%Z) (Some ToyForms.none_form) ∅) [] ∅ Toy.w0
  = (Raise TypeError, Toy.w0).
Proof.
  apply (formset_error_at_construction (S:=Toy.db) (Value:=Z) (Args:=Z) (FormState:=Z)
           Toy.child (BoundFormset.QNone Toy.child) "parent" (Fixed 7%Z)
           ToyForms.none_form ∅ [] ∅ Toy.w0); reflexivity.
Defined.

(** ** [MultiBoundObjectFormsMixin.get_forms], continued *)

Section MultiBoundObjectFormsMore.
Import BoundForm BoundFormset MultiBoundObjectForms.
Context {V H Args FormState : Type}.

Abbreviation view := (@MultiBoundObjectForms.view V H).

Context `{!Host view (option V) Args FormState}.

Abbreviation val := (pyval (base_form view (option V) Args FormState)).
Abbreviation query_set := (@BoundFormset.query_set view (option V) Args FormState).
Abbreviation constructor := (@BoundFormset.constructor view (option V) Args FormState).
Abbreviation formset := (@BoundFormset.formset view (option V) Args FormState).
Abbreviation model_conf := (@MultiBoundObjectForms.model_conf V H Args FormState).

Variable form_mixin_get_form_kwargs : M view (gmap string val).

Abbreviation get_forms_entry := (get_forms_entry form_mixin_get_form_kwargs).
Abbreviation get_forms_loop := (get_forms_loop form_mixin_get_form_kwargs).
Abbreviation get_forms := (get_forms form_mixin_get_form_kwargs).

Implicit Types (w : world event view) (forms : gmap string formset).
Implicit Types (conf : model_conf) (d kw : gmap string val).

(** What reading an entry gives, exactly. *)
Lemma read_conf_exact conf w model fk (qs : option query_set) kw w' :
  read_conf conf w = (Ok (model, fk, qs, kw), w') ->
  w' = w /\
  match conf with
  | ConfModel m => model = m /\ fk = None /\ qs = None /\ kw = ∅
  | ConfDict d =>
      d !! "model" = Some (PModel model) /\
      fk = match d !! "field_name" with Some (PStr s) => Some s | _ => None end /\
      qs = match d !! "queryset" with
           | None | Some PNone => None
           | Some q => Some (QGiven q)
           end /\
      kw = delete "queryset" (delete "field_name" (delete "model" d))
  end.
Proof.
  unfold read_conf, bind, ret, raise. destruct conf as [m|d].
  - intros [= <- <- <- <- <-]. auto.
  - intros Hr. repeat case_match; simplify_eq; auto.
Qed.

Lemma resolve_queryset_inv model field (qs : option query_set) w queryset w' :
  resolve_queryset model field qs w = (Ok queryset, w') ->
  w' = w /\
  queryset = match qs with
             | Some q => q
             | None =>
                 match object (store w) with
                 | Missing | PyNone => QNone model
                 | Has o => QFilter model field (Some o)
                 end
             end.
Proof.
  destruct qs as [q|].
  - intros [= <- <-]. auto.
  - apply resolve_queryset_default.
Qed.

Lemma call_bound_object_formset_exact
    model (queryset : query_set) field initial kw w (make : constructor) wm :
  call_bound_object_formset model queryset field initial kw w = (Ok make, wm) ->
  let form := match kw !! "form" with Some (PForm f) => Some f | _ => None end in
  make = Construct model queryset field initial form (delete "form" kw) /\
  bound_object_formset model queryset field initial form (delete "form" kw) w
  = (Ok make, wm).
Proof.
  unfold call_bound_object_formset. destruct (existsb _ _); [intros [=]|].
  intros Hc. apply bind_inv_ok in Hc as (form & w1 & Hform & Hc).
  assert (form = match kw !! "form" with Some (PForm f) => Some f | _ => None end
          /\ w1 = w) as [-> ->].
  { unfold ret, raise in Hform. repeat case_match; simplify_eq; auto. }
  split; [|exact Hc]. eapply bound_object_formset_inv. exact Hc.
Qed.

(** One turn of the loop, step by step. *)
Lemma get_forms_entry_inv conf forms w forms' w' :
  get_forms_entry conf forms w = (Ok forms', w') ->
  exists model fk qs kw field queryset make wm kwargs F,
    read_conf conf w = (Ok (model, fk, qs, kw), w) /\
    resolve_field model fk w = (Ok field, w) /\
    resolve_queryset model field qs w = (Ok queryset, w) /\
    call_bound_object_formset model queryset field new_object_producer kw w
    = (Ok make, wm) /\
    form_mixin_get_form_kwargs (store wm) = (Ok kwargs, store w') /\
    trace w' = trace wm /\ heap w' = heap wm /\
    kwargs !! "prefix" = None /\
    bound_object_form model field new_object_producer (c_form make) w' = (Ok F, w') /\
    forms' = <[lower (object_name model) :=
                 Formset model F (c_factory_kwargs make) [] queryset
                   (delete "queryset"
                      (<["prefix" := PStr (lower (object_name model))]> kwargs))]>
               forms.
Proof.
  unfold MultiBoundObjectForms.get_forms_entry. intros He.
  apply bind_inv_ok in He as ([[[model fk] qs] kw] & w1 & Hread & He).
  pose proof (read_conf_exact _ _ _ _ _ _ _ Hread) as [-> _].
  apply bind_inv_ok in He as (field & w2 & Hfield & He).
  pose proof (resolve_field_inv _ _ _ _ _ Hfield) as [-> _].
  apply bind_inv_ok in He as (queryset & w3 & Hq & He).
  pose proof (resolve_queryset_inv _ _ _ _ _ _ Hq) as [-> _].
  apply bind_inv_ok in He as (make & wm & Hmake & He).
  pose proof (call_bound_object_formset_exact _ _ _ _ _ _ _ _ Hmake) as [Hm _].
  apply bind_inv_ok in He as (kwargs & w5 & Hkw & He).
  apply lift_inv in Hkw as (Hkw & Ht & Hh).
  destruct (kwargs !! "prefix") eqn:Hprefix; [discriminate He|].
  apply bind_inv_ok in He as (fs & w6 & Hfs & He).
  apply construct_inv' in Hfs as (-> & Hfs & HF).
  injection He as <- <-.
  exists model, fk, qs, kw, field, queryset, make, wm, kwargs, (fs_form fs).
  rewrite Hm in Hfs, HF. cbn in Hfs, HF.
  repeat (split; [assumption|]). split; [rewrite Hm; exact HF|].
  rewrite Hm. cbn. rewrite <- Hfs. reflexivity.
Qed.

(** X10: a bare model without a foreign key stops [get_forms] with
    [ImproperlyConfigured] at that entry: the entries after it are not
    looked at, and neither the lists of the configuration nor the request
    state have been touched. *)
Theorem get_forms_without_foreign_key m rest forms w :
  Forall (fun f => is_foreign_key f = false) (fields m) ->
  get_forms_loop (ConfModel m :: rest) forms w = (Raise ImproperlyConfigured, w).
Proof.
  intros Hno. cbn [MultiBoundObjectForms.get_forms_loop]. apply bind_raise.
  unfold MultiBoundObjectForms.get_forms_entry.
  rewrite (bind_ok _ _ _ (m, None, None, ∅) w) by reflexivity.
  apply bind_raise. apply autodetect_without_foreign_key. exact Hno.
Qed.

(** X11: what a dictionary entry says is what is used.  The formset is
    stored under the lower-cased name of ['model']; its parent field is
    ['field_name'] when that is a string, whatever foreign keys the model
    has; its queryset is ['queryset'] when that is given, whatever
    [self.object] is; its forms derive from ['form'] when that is a form
    class; and of the entry only the other options reach
    [modelformset_factory]. *)
Theorem get_forms_entry_dict d forms w forms' w' :
  get_forms_entry (ConfDict d) forms w = (Ok forms', w') ->
  exists model fs,
    d !! "model" = Some (PModel model) /\
    forms' !! lower (object_name model) = Some fs /\
    match d !! "field_name" with
    | Some (PStr s) => closure_field (fs_form fs) = s
    | _ => detect_foreign_key (fields model) = Some (closure_field (fs_form fs))
    end /\
    match d !! "queryset" with
    | None | Some PNone =>
        fs_queryset fs
        = match object (store w) with
          | Missing | PyNone => QNone model
          | Has o => QFilter model (closure_field (fs_form fs)) (Some o)
          end
    | Some q => fs_queryset fs = QGiven q
    end /\
    superclass (fs_form fs)
    = match d !! "form" with
      | Some (PForm f) => f
      | _ => default_form model
      end /\
    fs_factory_kwargs fs
    = delete "form" (delete "queryset" (delete "field_name" (delete "model" d))).
Proof.
  intros He. apply get_forms_entry_inv in He
    as (model & fk & qs & kw & field & queryset & make & wm & kwargs & F & He).
  destruct He as (Hread & Hfield & Hq & Hmake & _ & _ & _ & _ & HF & ->).
  apply read_conf_exact in Hread as (_ & Hmodel & -> & -> & ->).
  apply resolve_field_inv in Hfield as [_ Hfield].
  apply resolve_queryset_inv in Hq as [_ ->].
  apply call_bound_object_formset_exact in Hmake as [-> _].
  apply bound_object_form_inv in HF as (HFf & _ & HFs & _). cbn in HFs.
  eexists model, _. split; [exact Hmodel|]. split; [apply lookup_insert_eq|].
  cbn. rewrite HFf.
  rewrite !lookup_delete_ne in HFs by discriminate.
  split; [|split; [|split; [|reflexivity]]].
  - destruct (d !! "field_name") as [[]|]; exact Hfield.
  - destruct (d !! "queryset") as [[]|]; reflexivity.
  - rewrite HFs. destruct (d !! "form") as [[]|]; reflexivity.
Qed.

(** The formsets [get_forms] builds. *)
Lemma get_forms_loop_invariant
    (P : string -> formset -> Prop) confs forms w forms' w' :
  (forall conf forms0 w0 forms1 w1 model F kw queryset kwargs,
     get_forms_entry conf forms0 w0 = (Ok forms1, w1) ->
     closure_field F ∈ meta_exclude F ->
     closure_initial F = new_object_producer ->
     kwargs !! "prefix" = Some (PStr (lower (object_name model))) ->
     P (lower (object_name model)) (Formset model F kw [] queryset kwargs)) ->
  get_forms_loop confs forms w = (Ok forms', w') ->
  map_Forall P forms -> map_Forall P forms'.
Proof.
  intros HP. revert forms w. induction confs as [|conf confs IH]; intros forms w.
  - intros [= <- <-]. auto.
  - cbn [MultiBoundObjectForms.get_forms_loop]. intros Hl Hforms.
    apply bind_inv_ok in Hl as (forms1 & w1 & He & Hl).
    apply (IH _ _ Hl).
    pose proof (get_forms_entry_inv _ _ _ _ _ He)
      as (model & fk & qs & kw & field & queryset & make & wm & kwargs & F & Hinv).
    destruct Hinv as (_ & _ & _ & _ & _ & _ & _ & _ & HF & ->).
    apply map_Forall_insert_2; [|exact Hforms].
    apply bound_object_form_inv in HF as (Hf & Hi & _ & Hex).
    eapply HP; [exact He | rewrite Hf; exact Hex | exact Hi |].
    rewrite lookup_delete_ne by discriminate. apply lookup_insert_eq.
Qed.

(** X12: every formset in the dictionary [get_forms] returns sits under
    the lower-cased name of its model, was constructed with that same
    string as [prefix] and without positional arguments, and has forms that
    exclude their parent field and are bound to [lambda: self.new_object]. *)
Theorem get_forms_formsets confs w forms w' key fs :
  get_forms confs w = (Ok forms, w') ->
  forms !! key = Some fs ->
  key = lower (object_name (fs_model fs)) /\
  fs_kwargs fs !! "prefix" = Some (PStr key) /\
  fs_args fs = [] /\
  closure_field (fs_form fs) ∈ meta_exclude (fs_form fs) /\
  closure_initial (fs_form fs) = new_object_producer.
Proof.
  intros Hg Hkey. unfold MultiBoundObjectForms.get_forms in Hg.
  refine (get_forms_loop_invariant
            (fun key fs =>
               key = lower (object_name (fs_model fs)) /\
               fs_kwargs fs !! "prefix" = Some (PStr key) /\
               fs_args fs = [] /\
               closure_field (fs_form fs) ∈ meta_exclude (fs_form fs) /\
               closure_initial (fs_form fs) = new_object_producer)
            confs ∅ w forms w' _ Hg _ key fs Hkey).
  - intros conf forms0 w0 forms1 w1 model F kw queryset kwargs _ Hex Hi Hp.
    cbn. auto.
  - apply map_Forall_empty.
Qed.

(** X13: a form of a formset built by [get_forms] takes its parent from
    [self.new_object] as it is when the form is saved: with [new_object]
    set the saved instance's parent field is that object, with
    [new_object] missing (no primary form saved yet) the save fails with
    [AttributeError] before [Model.save] is reached. *)
Theorem child_save_binds_new_object
    confs w forms w' key fs self commit w1 obj0 s1 :
  get_forms confs w = (Ok forms, w') ->
  forms !! key = Some fs ->
  bf_save (superclass (fs_form fs)) self false (store w1) = (Ok obj0, s1) ->
  match new_object s1 with
  | Missing =>
      save (fs_form fs) self commit w1
      = (Raise AttributeError, World (trace w1 ++ [EvProducer]) (heap w1) s1)
  | PyNone =>
      forall obj w2, save (fs_form fs) self commit w1 = (Ok obj, w2) ->
        inst_attrs obj !! closure_field (fs_form fs) = Some None
  | Has o =>
      forall obj w2, save (fs_form fs) self commit w1 = (Ok obj, w2) ->
        inst_attrs obj !! closure_field (fs_form fs) = Some (Some o)
  end.
Proof.
  intros Hg Hkey Hbase. unfold MultiBoundObjectForms.get_forms in Hg.
  assert (Hinit : closure_initial (fs_form fs) = new_object_producer).
  { refine (get_forms_loop_invariant
              (fun _ fs => closure_initial (fs_form fs) = new_object_producer)
              confs ∅ w forms w' _ Hg _ key fs Hkey).
    - intros; assumption.
    - apply map_Forall_empty. }
  assert (Hsaved : forall v obj w2,
             match new_object s1 with
             | Missing => False
             | PyNone => v = None
             | Has o => v = Some o
             end ->
             save (fs_form fs) self commit w1 = (Ok obj, w2) ->
             inst_attrs obj !! closure_field (fs_form fs) = Some v).
  { intros v obj w2 Hv Hs.
    apply save_inv in Hs as [(e & _ & He) | (obj1 & wa & Hb & Hrest)];
      [discriminate He|].
    apply lift_inv in Hb as (Hb & _ & _). rewrite Hbase in Hb.
    injection Hb as <- Hs1.
    destruct Hrest as [(e & _ & He) | (v' & wb & Hres & Hattrs)]; [discriminate He|].
    rewrite (Hattrs obj eq_refl). rewrite Hinit in Hres. cbn in Hres.
    apply call_inv in Hres as (Hp & _ & _). rewrite <- Hs1 in Hp.
    destruct (new_object s1); [contradiction| |]; subst;
      injection Hp as <- _; apply lookup_insert_eq. }
  destruct (new_object s1) eqn:Hnew.
  - unfold save. rewrite Hinit.
    rewrite (bind_ok _ _ _ obj0 (World (trace w1) (heap w1) s1))
      by (unfold lift; rewrite Hbase; reflexivity).
    apply bind_raise. cbn. unfold call, bind, log, modify, lift. cbn.
    rewrite Hnew. reflexivity.
  - intros obj w2. apply Hsaved. reflexivity.
  - intros obj w2. apply Hsaved. reflexivity.
Qed.

(** X14: the clone of a configuration dictionary is shallow: an
    ['exclude'] list in an entry of [forms_models] is the list the formset
    factory appends to, so after [get_forms] has handled the entry the
    list of the configuration itself names the parent field (once more
    than before if it did not name it), and that same list is what the
    formset was built with. *)
Theorem get_forms_entry_updates_exclude d l names forms w forms' w' :
  d !! "exclude" = Some (PListRef l) ->
  heap w !! l = Some names ->
  get_forms_entry (ConfDict d) forms w = (Ok forms', w') ->
  exists model fs,
    d !! "model" = Some (PModel model) /\
    forms' !! lower (object_name model) = Some fs /\
    fs_factory_kwargs fs !! "exclude" = Some (PListRef l) /\
    heap w' = <[l := excluded (closure_field (fs_form fs)) names]> (heap w).
Proof.
  intros Hex Hl He. apply get_forms_entry_inv in He
    as (model & fk & qs & kw & field & queryset & make & wm & kwargs & F & He).
  destruct He as (Hread & _ & _ & Hmake & _ & _ & Hh & _ & HF & ->).
  apply read_conf_exact in Hread as (_ & Hmodel & _ & _ & ->).
  apply call_bound_object_formset_exact in Hmake as [-> Hmake].
  assert (Hkw : delete "form"
                  (delete "queryset" (delete "field_name" (delete "model" d)))
                !! "exclude" = Some (PListRef l)).
  { rewrite !lookup_delete_ne by discriminate. exact Hex. }
  rewrite (bound_object_formset_exclude _ _ _ _ _ _ _ _ _ Hkw Hl) in Hmake.
  injection Hmake as <-.
  apply bound_object_form_inv in HF as (HFf & _).
  eexists model, _. split; [exact Hmodel|]. split; [apply lookup_insert_eq|].
  cbn. split; [exact Hkw|]. rewrite Hh, HFf. reflexivity.
Qed.

End MultiBoundObjectFormsMore.

(** [parent] has no foreign key. *)
Lemma get_forms_without_foreign_key_witness :
  ToyForms.get_forms
    [MultiBoundObjectForms.ConfModel Toy.parent;
     MultiBoundObjectForms.ConfModel Toy.child] (Toy.view_world (Has 3%Z))
  = (Raise ImproperlyConfigured, Toy.view_world (Has 3%Z)).
Proof.
  apply (@get_forms_without_foreign_key Z unit unit unit Toy.toy_view_host (ret ∅)
           Toy.parent [MultiBoundObjectForms.ConfModel Toy.child] ∅
           (Toy.view_world (Has 3%Z))).
  repeat constructor.
Defined.

(** The entry for [link] names ["a"], though the scan would give ["b"],
    and its queryset, though the view has an object. *)
Lemma get_forms_entry_dict_witness :
  exists forms' w' fs,
    Toy.get_forms_entry (MultiBoundObjectForms.ConfDict ToyForms.link_conf) ∅
      (ToyForms.view_world_with_list ["id"] (Has 3%Z) Missing) = (Ok forms', w') /\
    forms' !! "link" = Some fs /\
    BoundForm.closure_field (BoundFormset.fs_form fs) = "a" /\
    BoundFormset.fs_queryset fs = BoundFormset.QGiven (PObject 9) /\
    BoundFormset.fs_factory_kwargs fs !! "queryset" = None /\
    BoundFormset.fs_factory_kwargs fs !! "extra" = Some (PInt 2).
Proof.
  destruct (Toy.get_forms_entry (MultiBoundObjectForms.ConfDict ToyForms.link_conf) ∅
              (ToyForms.view_world_with_list ["id"] (Has 3%Z) Missing))
    as [[forms'|e] w'] eqn:Hrun; [|vm_compute in Hrun; discriminate Hrun].
  destruct (get_forms_entry_dict _ _ _ _ _ _ Hrun)
    as (model & fs & Hmodel & Hlook & Hfield & Hq & _ & Hkw).
  vm_compute in Hmodel. injection Hmodel as <-.
  exists forms', w', fs. split; [reflexivity|]. split; [exact Hlook|].
  split; [exact Hfield|]. split; [exact Hq|].
  rewrite Hkw. split; reflexivity.
Defined.

(** A child form saved while the view's [new_object] is 8 gets 8 as its
    parent; saved before there is one, it fails. *)
Lemma child_save_binds_new_object_witness :
  exists forms w' (fs : ToyForms.view_formset),
    ToyForms.get_forms [MultiBoundObjectForms.ConfModel Toy.child]
      (Toy.view_world PyNone) = (Ok forms, w') /\
    forms !! "child" = Some fs /\
    (forall obj w2,
       ToyForms.view_save (BoundFormset.fs_form fs) tt true
         (World [] ∅ (MultiBoundObjectForms.View PyNone (Has 8%Z) tt)) = (Ok obj, w2) ->
       inst_attrs obj !! "parent" = Some (Some 8%Z)) /\
    ToyForms.view_save (BoundFormset.fs_form fs) tt true (Toy.view_world PyNone)
    = (Raise AttributeError,
       World [BoundForm.EvProducer] ∅ (MultiBoundObjectForms.View PyNone Missing tt)).
Proof.
  destruct (ToyForms.get_forms [MultiBoundObjectForms.ConfModel Toy.child]
              (Toy.view_world PyNone)) as [[forms|e] w'] eqn:Hrun;
    [|vm_compute in Hrun; discriminate Hrun].
  destruct (forms !! "child") as [fs|] eqn:Hlook.
  2:{ vm_compute in Hrun. injection Hrun as <- _. vm_compute in Hlook.
      discriminate Hlook. }
  pose proof (fun commit w1 obj0 s1 =>
                @child_save_binds_new_object Z unit unit unit Toy.toy_view_host
                  (ret ∅) _ _ _ _ "child" fs tt commit w1 obj0 s1 Hrun Hlook)
    as Hspec.
  assert (Hbase : forall s1 : Toy.bound_view,
             bf_save (BoundForm.superclass (BoundFormset.fs_form fs)) tt false s1
             = (Ok (Instance Toy.child None ∅), s1)
             /\ BoundForm.closure_field (BoundFormset.fs_form fs) = "parent").
  { intros s1. vm_compute in Hrun. injection Hrun as <- _.
    vm_compute in Hlook. injection Hlook as <-. split; reflexivity. }
  exists forms, w', fs. split; [reflexivity|]. split; [exact Hlook|]. split.
  - intros obj w2 Hs.
    pose proof (Hspec true (World [] ∅ (MultiBoundObjectForms.View PyNone (Has 8%Z) tt))
                  _ _ (proj1 (Hbase _)) obj w2 Hs) as Hattr.
    rewrite (proj2 (Hbase (MultiBoundObjectForms.View PyNone Missing tt))) in Hattr.
    exact Hattr.
  - exact (Hspec true (Toy.view_world PyNone) _ _ (proj1 (Hbase _))).
Defined.

(** Handling the entry for [link] appends ["a"] to the list of the
    configuration. *)
Lemma get_forms_entry_updates_exclude_witness :
  exists forms' w',
    Toy.get_forms_entry (MultiBoundObjectForms.ConfDict ToyForms.link_conf) ∅
      (ToyForms.view_world_with_list ["id"] (Has 3%Z) Missing) = (Ok forms', w') /\
    heap w' !! 0 = Some ["id"; "a"].
Proof.
  destruct (Toy.get_forms_entry (MultiBoundObjectForms.ConfDict ToyForms.link_conf) ∅
              (ToyForms.view_world_with_list ["id"] (Has 3%Z) Missing))
    as [[forms'|e] w'] eqn:Hrun; [|vm_compute in Hrun; discriminate Hrun].
  destruct (get_forms_entry_updates_exclude _ ToyForms.link_conf 0 ["id"] ∅
              (ToyForms.view_world_with_list ["id"] (Has 3%Z) Missing) _ _
              eq_refl eq_refl Hrun)
    as (model & fs & Hmodel & Hlook & _ & Hheap).
  vm_compute in Hmodel. injection Hmodel as <-.
  exists forms', w'. split; [reflexivity|].
  rewrite Hheap, lookup_insert_eq.
  vm_compute in Hrun. injection Hrun as <- _.
  vm_compute in Hlook. injection Hlook as <-. reflexivity.
Defined.

Lemma get_forms_formsets_witness :
  exists forms w' (fs : ToyForms.view_formset),
    ToyForms.get_forms
      [MultiBoundObjectForms.ConfModel Toy.child;
       MultiBoundObjectForms.ConfModel Toy.link] (Toy.view_world PyNone)
    = (Ok forms, w') /\
    forms !! "link" = Some fs /\
    BoundFormset.fs_kwargs fs !! "prefix" = Some (PStr "link").
Proof.
  destruct (ToyForms.get_forms
              [MultiBoundObjectForms.ConfModel Toy.child;
               MultiBoundObjectForms.ConfModel Toy.link] (Toy.view_world PyNone))
    as [[forms|e] w'] eqn:Hrun; [|vm_compute in Hrun; discriminate Hrun].
  destruct (forms !! "link") as [fs|] eqn:Hlook.
  2:{ vm_compute in Hrun. injection Hrun as <- _. vm_compute in Hlook.
      discriminate Hlook. }
  destruct (get_forms_formsets _ _ _ _ _ _ _ Hrun Hlook) as (_ & Hprefix & _).
  exists forms, w', fs. split; [reflexivity|]. split; [exact Hlook | exact Hprefix].
Defined.

(** ** [BoundCreateView], continued *)

Section BoundCreateViewMore.
Import BoundCreateView.
Context {Obj Kwargs H : Type}.
Variable obj_bool : Obj -> bool.
Variable obj_meta : Obj -> option model_class.
Variable model_bool : model_class -> bool.
Variable super_get_form_kwargs : M (@view Obj H) Kwargs.
Variable super_get_template_names : M (@view Obj H) (list string).

Implicit Types (self : @view Obj H).

Abbreviation get_form_kwargs := (get_form_kwargs super_get_form_kwargs).
Abbreviation parent_and_child :=
  (parent_and_child obj_bool obj_meta model_bool).
Abbreviation get_template_names :=
  (get_template_names obj_bool obj_meta model_bool super_get_template_names).

(** X15: [self.object] is put back only when the superclass returns.  If
    the superclass's [get_form_kwargs] raises, the exception is passed on
    and the view is left as the superclass left it, with [self.object]
    still cleared unless the superclass set it. *)
Theorem get_form_kwargs_failure_keeps_object_cleared self e self1 :
  object self <> Missing ->
  super_get_form_kwargs (set_object PyNone self) = (Raise e, self1) ->
  get_form_kwargs self = (Raise e, self1).
Proof.
  intros Hobj Hsuper. unfold BoundCreateView.get_form_kwargs.
  rewrite (bind_ok _ _ _ _ _ (read_object_ok self Hobj)).
  unfold bind at 1. cbn. apply bind_raise. exact Hsuper.
Qed.

(** X16: for any parent object and child model that are true in a truth
    test and have [_meta], and any suffix, the view's own names are, in this
    order, parent app and child app with the name [parent_child], then child
    app and parent app with the name [child]; the model names are
    lower-cased, the app labels and the suffix are taken as they are, and
    the superclass's names follow. *)
Theorem template_names_of_any_models self names0 self1 o parent child :
  super_get_template_names self = (Ok names0, self1) ->
  object self1 = Has o -> obj_bool o = true -> obj_meta o = Some parent ->
  model self1 = Has (Some child) -> model_bool child = true ->
  get_template_names self
  = (Ok ([ (app_label parent ++ "/" ++ lower (object_name parent) ++ "_"
              ++ lower (object_name child) ++ template_name_suffix self1
              ++ ".html")%string;
           (app_label child ++ "/" ++ lower (object_name parent) ++ "_"
              ++ lower (object_name child) ++ template_name_suffix self1
              ++ ".html")%string;
           (app_label child ++ "/" ++ lower (object_name child)
              ++ template_name_suffix self1 ++ ".html")%string;
           (app_label parent ++ "/" ++ lower (object_name child)
              ++ template_name_suffix self1 ++ ".html")%string ] ++ names0), self1).
Proof.
  intros Hsuper Ho Hbool Hmeta Hmodel Hmbool.
  erewrite get_template_names_own; try eassumption.
  - reflexivity.
  - unfold try_except. rewrite Hsuper. reflexivity.
Qed.

(** X17: when there is no parent object, or the parent object or the
    child model has no [_meta], the view adds no name of its own: the
    result is the superclass's list. *)
Theorem template_names_without_meta self names0 self1 :
  super_get_template_names self = (Ok names0, self1) ->
  object self1 = PyNone \/
  (exists o, object self1 = Has o /\ obj_meta o = None) \/
  (object self1 <> Missing /\
   (model self1 = PyNone \/ model self1 = Has None)) ->
  get_template_names self = (Ok names0, self1).
Proof.
  intros Hsuper Hnone. unfold BoundCreateView.get_template_names.
  erewrite bind_ok by (unfold try_except; rewrite Hsuper; reflexivity).
  assert (Hpc : parent_and_child self1 = (Ok None, self1)).
  { unfold BoundCreateView.parent_and_child.
    destruct Hnone as [Ho | [(o & Ho & Hmeta) | (Ho & Hm)]].
    - rewrite (bind_ok _ _ _ (object self1) self1)
        by (apply read_object_ok; congruence).
      rewrite Ho. reflexivity.
    - rewrite (bind_ok _ _ _ (object self1) self1)
        by (apply read_object_ok; congruence).
      rewrite Ho, Hmeta. destruct (obj_bool o); reflexivity.
    - rewrite (bind_ok _ _ _ (object self1) self1) by (apply read_object_ok; exact Ho).
      destruct (object self1) as [| |o]; [congruence | reflexivity |].
      destruct (obj_bool o); [|reflexivity].
      destruct (obj_meta o); [|reflexivity].
      unfold read_model, bind, get, ret. cbn.
      destruct Hm as [-> | ->]; reflexivity. }
  rewrite (bind_ok _ _ _ _ _ Hpc). reflexivity.
Qed.

End BoundCreateViewMore.

(** When the superclass fails the parent is gone from the view. *)
Lemma get_form_kwargs_failure_keeps_object_cleared_witness :
  BoundCreateView.get_form_kwargs ToyForms.failing_kwargs Toy.a_create_view
  = (Raise (HostError 1), BoundCreateView.set_object PyNone Toy.a_create_view) /\
  BoundCreateView.object (BoundCreateView.set_object PyNone Toy.a_create_view)
  = PyNone.
Proof.
  split; [|reflexivity].
  apply (get_form_kwargs_failure_keeps_object_cleared ToyForms.failing_kwargs
           Toy.a_create_view (HostError 1)
           (BoundCreateView.set_object PyNone Toy.a_create_view)).
  - discriminate.
  - reflexivity.
Defined.

Lemma template_names_of_any_models_witness :
  BoundCreateView.get_template_names Toy.plain_bool Toy.meta_of Toy.plain_bool
    Toy.detail_template_name Toy.a_create_view
  = (Ok [ "app1/parent_child_create.html"; "app2/parent_child_create.html";
          "app2/child_create.html"; "app1/child_create.html";
          "app1/parent_create.html" ], Toy.a_create_view).
Proof.
  apply (template_names_of_any_models Toy.plain_bool Toy.meta_of Toy.plain_bool
           Toy.detail_template_name Toy.a_create_view ["app1/parent_create.html"] Toy.a_create_view
           Toy.the_parent Toy.parent Toy.child); reflexivity.
Defined.

Lemma template_names_without_meta_witness :
  BoundCreateView.get_template_names Toy.plain_bool Toy.meta_of Toy.plain_bool
    Toy.detail_template_name ToyForms.unresolved_view
  = (Ok ["app1/parent_create.html"], ToyForms.unresolved_view).
Proof.
  apply (template_names_without_meta Toy.plain_bool Toy.meta_of Toy.plain_bool
           Toy.detail_template_name ToyForms.unresolved_view ["app1/parent_create.html"]
           ToyForms.unresolved_view).
  - reflexivity.
  - left. reflexivity.
Defined.

(** ** The multi-form views, continued *)

Section MultipleFormsMore.
Import ProcessMultipleForms MultipleFormsViews.
Context {FormClass Form Obj Url Ctx Body H : Type}.

Abbreviation view := (@ProcessMultipleForms.view Obj H).
Abbreviation context := (@ProcessMultipleForms.context Form Ctx).
Abbreviation W := (world (event Obj) view).

Variable get_form_class : M view FormClass.
Variable get_form : FormClass -> M view Form.
Variable get_forms : M view (list (string * Form)).
Variable super_get_context_data : M view Ctx.
Variable render_to_response : context -> M view Body.
Variable get_success_url : M view Url.
Variable is_valid : Form -> M view bool.
Variable form_save : Form -> bool -> M view Obj.
Variable save_m2m : Form -> M view unit.
Variable obj_save : Obj -> M view unit.

Abbreviation get_context_data :=
  (ProcessMultipleForms.get_context_data get_form_class get_form get_forms
     super_get_context_data).
Abbreviation post :=
  (ProcessMultipleForms.post get_form_class get_form get_forms
     super_get_context_data render_to_response get_success_url is_valid
     form_save save_m2m obj_save).
Abbreviation get :=
  (MultipleFormsViews.get (Url:=Url) get_form_class get_form get_forms
     super_get_context_data render_to_response).

Implicit Types (w : W) (t : list (event Obj)) (forms : list (string * Form)).

Abbreviation extends w' w t := (trace w' = trace w ++ t).

(** The trace of the saves of a POST in which every form is valid. *)
Abbreviation saves_of new_obj forms :=
  ([EvSave (Obj:=Obj) Primary false; EvModelSave new_obj]
   ++ map (fun kf : string * Form => EvSave (Secondary (fst kf)) true) forms
   ++ [EvSaveM2M]).

Lemma render_events w (r : result (response Url Body)) w' :
  (ctx <- get_context_data ;;
   body <- call EvRender (render_to_response ctx) ;;
   ret (Rendered body)) w = (r, w') ->
  exists t,
    extends w' w t /\
    (t = [] /\ (exists e, r = Raise e) \/
     t = [EvRender] /\
     match r with Ok resp => exists body, resp = Rendered body | Raise _ => True end).
Proof.
  intros Hb.
  apply bind_inv in Hb as [(ctx & w1 & H1 & Hb) | (e & H1 & ->)].
  2:{ apply get_context_data_extends in H1. exists []. eauto. }
  apply get_context_data_extends in H1.
  apply bind_inv in Hb as [(body & w2 & H2 & Hb) | (e & H2 & ->)];
    [injection Hb as <- <-|];
    apply call_extends in H2; exists [EvRender];
    (split; [rewrite H2, H1, app_nil_r; reflexivity|]); right;
    (split; [reflexivity|]).
  - eauto.
  - exact I.
Qed.

Lemma mapM_validate_secondary forms w r w' :
  mapM (fun kf => validate is_valid (Secondary (fst kf)) (snd kf)) forms w = (r, w') ->
  exists t,
    extends w' w t /\
    Forall (fun ev => exists k b, ev = EvIsValid (Secondary k) b) t /\
    match r with
    | Ok answers =>
        forallb id answers = true ->
        t = map (fun kf => EvIsValid (Secondary (fst kf)) true) forms
    | Raise _ => True
    end.
Proof.
  revert w r w'. induction forms as [|[k f] forms IH]; intros w r w' Hm.
  - injection Hm as <- <-. exists []. split; [rewrite app_nil_r; reflexivity|].
    split; [constructor | reflexivity].
  - cbn [mapM fst snd] in Hm.
    apply bind_inv in Hm as [(b & w1 & Hv & Hm) | (e & Hv & ->)].
    + apply validate_inv in Hv as [(b' & [= <-] & He1) | (e & [=] & _)].
      apply bind_inv in Hm as [(bs & w2 & Hrest & Hm) | (e & Hrest & ->)];
        [injection Hm as <- <-|];
        apply IH in Hrest as (t & He2 & Hsec & Hr);
        exists ([EvIsValid (Secondary k) b] ++ t);
        (split; [rewrite He2, He1, <- app_assoc; reflexivity|]);
        (split; [constructor; [eauto | exact Hsec]|]).
      * cbn. intros Hall.
        apply andb_prop in Hall as [Hb Hbs]. unfold id in Hb. subst b.
        rewrite (Hr Hbs). reflexivity.
      * exact I.
    + apply validate_inv in Hv as [(b' & [=] & _) | (e' & _ & He1)].
      exists []. split; [exact He1|]. split; [constructor | exact I].
Qed.

Lemma mapM_save_prefix forms w r w' :
  mapM (fun kf => call (EvSave (Secondary (fst kf)) true) (form_save (snd kf) true))
    forms w = (r, w') ->
  exists t,
    extends w' w t /\
    t `prefix_of` map (fun kf => EvSave (Obj:=Obj) (Secondary (fst kf)) true) forms /\
    match r with
    | Ok _ => t = map (fun kf => EvSave (Secondary (fst kf)) true) forms
    | Raise _ => True
    end.
Proof.
  revert w r w'. induction forms as [|[k f] forms IH]; intros w r w' Hm.
  - injection Hm as <- <-. exists []. split; [rewrite app_nil_r; reflexivity|].
    split; reflexivity.
  - cbn [mapM fst snd] in Hm.
    apply bind_inv in Hm as [(o & w1 & Hc & Hm) | (e & Hc & ->)].
    + apply call_extends in Hc.
      apply bind_inv in Hm as [(os & w2 & Hrest & Hm) | (e & Hrest & ->)];
        [injection Hm as <- <-|];
        apply IH in Hrest as (t & He & Hpre & Hr);
        exists ([EvSave (Secondary k) true] ++ t);
        (split; [rewrite He, Hc, <- app_assoc; reflexivity|]);
        (split; [cbn; apply prefix_cons; exact Hpre|]).
      * rewrite Hr. reflexivity.
      * exact I.
    + apply call_extends in Hc. exists [EvSave (Secondary k) true].
      split; [exact Hc|]. split; [|exact I].
      cbn. apply prefix_cons, prefix_nil.
Qed.

(** The saves, however far they get. *)
Lemma save_block_prefix form forms w (r : result (response Url Body)) w' :
  (new_obj <- call (EvSave Primary false) (form_save form false) ;;
   lift (modify (set_new_object new_obj)) ;;;
   call (EvModelSave new_obj) (obj_save new_obj) ;;;
   mapM (fun kf => call (EvSave (Secondary (fst kf)) true) (form_save (snd kf) true))
     forms ;;;
   call EvSaveM2M (save_m2m form) ;;;
   url <- lift get_success_url ;;
   ret (HttpResponseRedirect url)) w = (r, w') ->
  exists t,
    extends w' w t /\
    (t = [EvSave Primary false] /\ (exists e, r = Raise e) \/
     exists new_obj sb r1 sc,
       form_save form false (store w) = (Ok new_obj, sb) /\
       obj_save new_obj (set_new_object new_obj sb) = (r1, sc) /\
       [EvSave Primary false; EvModelSave new_obj] `prefix_of` t /\
       t `prefix_of` saves_of new_obj forms /\
       match r with
       | Ok resp =>
           r1 = Ok tt /\ t = saves_of new_obj forms /\
           exists url, resp = HttpResponseRedirect url
       | Raise _ => True
       end).
Proof.
  intros Hb.
  apply bind_inv in Hb as [(new_obj & w1 & H1 & Hb) | (e & H1 & ->)].
  2:{ apply call_extends in H1. exists [EvSave Primary false]. eauto. }
  pose proof (call_inv _ _ _ _ _ H1) as (Hsave & _ & Hh1). apply call_extends in H1.
  apply bind_inv in Hb as [([] & w2 & H2 & Hb) | (e & H2 & ->)].
  2:{ apply lift_inv in H2 as ([=] & _). }
  pose proof (lift_inv _ _ _ _ H2) as (Hset & _ & _). apply lift_extends in H2.
  injection Hset as Hset.
  apply bind_inv in Hb as [([] & w3 & H3 & Hb) | (e & H3 & ->)].
  2:{ pose proof (call_inv _ _ _ _ _ H3) as (Hos & _ & _). apply call_extends in H3.
      exists [EvSave Primary false; EvModelSave new_obj].
      split; [rewrite H3, H2, H1, app_nil_r, <- app_assoc; reflexivity|].
      right. exists new_obj, (store w1), (Raise e), (store w').
      rewrite Hset. split; [exact Hsave|]. split; [exact Hos|].
      split; [reflexivity|]. split; [|exact I].
      exists (map (fun kf : string * Form => EvSave (Secondary (fst kf)) true) forms
              ++ [EvSaveM2M]). reflexivity. }
  pose proof (call_inv _ _ _ _ _ H3) as (Hos & _ & _). apply call_extends in H3.
  rewrite <- Hset in Hos.
  assert (H03 : extends w3 w [EvSave Primary false; EvModelSave new_obj])
    by (rewrite H3, H2, H1, app_nil_r, <- app_assoc; reflexivity).
  clear H1 H2 H3.
  assert (Hfinish : forall t3,
             extends w' w3 t3 ->
             t3 `prefix_of`
               (map (fun kf : string * Form => EvSave (Obj:=Obj) (Secondary (fst kf)) true)
                  forms ++ [EvSaveM2M]) ->
             match r with
             | Ok resp =>
                 t3 = map (fun kf : string * Form => EvSave (Secondary (fst kf)) true)
                        forms ++ [EvSaveM2M] /\
                 exists url, resp = HttpResponseRedirect url
             | Raise _ => True
             end ->
             exists t,
               extends w' w t /\
               (t = [EvSave Primary false] /\ (exists e, r = Raise e) \/
                exists new_obj sb r1 sc,
                  form_save form false (store w) = (Ok new_obj, sb) /\
                  obj_save new_obj (set_new_object new_obj sb) = (r1, sc) /\
                  [EvSave Primary false; EvModelSave new_obj] `prefix_of` t /\
                  t `prefix_of` saves_of new_obj forms /\
                  match r with
                  | Ok resp =>
                      r1 = Ok tt /\ t = saves_of new_obj forms /\
                      exists url, resp = HttpResponseRedirect url
                  | Raise _ => True
                  end)).
  { intros t3 He3 Hpre Hr.
    exists ([EvSave Primary false; EvModelSave new_obj] ++ t3).
    split; [rewrite He3, H03, <- app_assoc; reflexivity|].
    right. exists new_obj, (store w1), (Ok tt), (store w3).
    split; [exact Hsave|]. split; [exact Hos|].
    split; [exists t3; reflexivity|].
    split; [apply prefix_app; exact Hpre|].
    destruct r as [resp|e]; [|exact I].
    destruct Hr as [-> Hurl]. auto. }
  apply bind_inv in Hb as [(subs & w4 & H4 & Hb) | (e & H4 & ->)].
  2:{ apply mapM_save_prefix in H4 as (t4 & H4 & Hpre & _).
      apply (Hfinish t4 H4); [|exact I].
      apply prefix_app_r. exact Hpre. }
  apply mapM_save_prefix in H4 as (t4 & H4 & _ & ->).
  apply bind_inv in Hb as [([] & w5 & H5 & Hb) | (e & H5 & ->)].
  2:{ apply call_extends in H5.
      apply (Hfinish _ ltac:(rewrite H5, H4, <- app_assoc; reflexivity));
        [reflexivity | exact I]. }
  apply call_extends in H5.
  apply bind_inv in Hb as [(url & w6 & H6 & Hb) | (e & H6 & ->)].
  2:{ apply lift_extends in H6.
      apply (Hfinish _ ltac:(rewrite H6, H5, H4, app_nil_r, <- app_assoc; reflexivity));
        [reflexivity | exact I]. }
  apply lift_extends in H6. injection Hb as <- <-.
  apply (Hfinish _ ltac:(rewrite H6, H5, H4, app_nil_r, <- app_assoc; reflexivity));
    [reflexivity|]. eauto.
Qed.

(** The validations: the primary form first and once; the secondary forms
    only after it was found valid. *)
Lemma all_valid_primary form forms w r w' :
  all_valid is_valid form forms w = (r, w') ->
  exists t,
    extends w' w t /\
    (t = [] /\ (exists e, r = Raise e) \/
     t = [EvIsValid Primary false] /\ r = Ok false \/
     exists tv,
       t = EvIsValid Primary true :: tv /\
       Forall (fun ev => exists k b, ev = EvIsValid (Secondary k) b) tv /\
       (r = Ok true ->
        tv = map (fun kf => EvIsValid (Secondary (fst kf)) true) forms)).
Proof.
  unfold ProcessMultipleForms.all_valid. intros Ha.
  apply bind_inv in Ha as [(b & w1 & Hv & Ha) | (e & Hv & ->)].
  - apply validate_inv in Hv as [(b' & [= <-] & He1) | (e & [=] & _)].
    destruct b.
    + apply bind_inv in Ha as [(bs & w2 & Hm & Ha) | (e & Hm & ->)];
        [injection Ha as <- <-|];
        apply mapM_validate_secondary in Hm as (tv & He2 & Hsec & Hr);
        exists ([EvIsValid Primary true] ++ tv);
        (split; [rewrite He2, He1, <- app_assoc; reflexivity|]);
        right; right; exists tv; (split; [reflexivity|]); (split; [exact Hsec|]).
      * intros [= Hall]. apply Hr. exact Hall.
      * intros [=].
    + injection Ha as <- <-. exists [EvIsValid Primary false].
      split; [exact He1|]. right. left. auto.
  - apply validate_inv in Hv as [(b' & [=] & _) | (e' & _ & He1)].
    exists []. split; [exact He1|]. left. eauto.
Qed.

(** The ways a [post] can go. *)
Lemma post_cases w r w' :
  post w = (r, w') ->
  exists t,
    extends w' w t /\
    (t = [] /\ (exists e, r = Raise e) \/
     (exists tv tr,
        (t = EvIsValid Primary false :: tr /\ tv = [] \/
         t = EvIsValid Primary true :: tv ++ tr) /\
        Forall (fun ev => exists k b, ev = EvIsValid (Secondary k) b) tv /\
        (tr = [] \/ tr = [EvRender]) /\
        match r with
        | Ok resp => exists body, resp = Rendered body
        | Raise _ => True
        end) \/
     exists form_class s1 form s2 forms s3 sv t2,
       get_form_class (store w) = (Ok form_class, s1) /\
       get_form form_class s1 = (Ok form, s2) /\
       get_forms s2 = (Ok forms, s3) /\
       t = (EvIsValid Primary true
              :: map (fun kf => EvIsValid (Secondary (fst kf)) true) forms) ++ t2 /\
       (t2 = [EvSave Primary false] /\ (exists e, r = Raise e) \/
        exists new_obj sb r1 sc,
          form_save form false sv = (Ok new_obj, sb) /\
          obj_save new_obj (set_new_object new_obj sb) = (r1, sc) /\
          [EvSave Primary false; EvModelSave new_obj] `prefix_of` t2 /\
          t2 `prefix_of` saves_of new_obj forms /\
          match r with
          | Ok resp =>
              r1 = Ok tt /\ t2 = saves_of new_obj forms /\
              exists url, resp = HttpResponseRedirect url
          | Raise _ => True
          end)).
Proof.
  unfold ProcessMultipleForms.post. intros Hp.
  apply bind_inv in Hp as [(fc & w1 & H1 & Hp) | (e & H1 & ->)].
  2:{ apply lift_extends in H1. exists []. split; [exact H1|]. left. eauto. }
  pose proof (lift_inv _ _ _ _ H1) as (Hfc & _ & _). apply lift_extends in H1.
  apply bind_inv in Hp as [(form & w2 & H2 & Hp) | (e & H2 & ->)].
  2:{ apply lift_extends in H2. exists [].
      split; [rewrite H2, H1, app_nil_r; reflexivity|]. left. eauto. }
  pose proof (lift_inv _ _ _ _ H2) as (Hform & _ & _). apply lift_extends in H2.
  apply bind_inv in Hp as [(forms & w3 & H3 & Hp) | (e & H3 & ->)].
  2:{ apply lift_extends in H3. exists [].
      split; [rewrite H3, H2, H1, !app_nil_r; reflexivity|]. left. eauto. }
  pose proof (lift_inv _ _ _ _ H3) as (Hforms & _ & _). apply lift_extends in H3.
  assert (H03 : extends w3 w []) by (rewrite H3, H2, H1, !app_nil_r; reflexivity).
  clear H1 H2 H3. rewrite app_nil_r in H03.
  apply bind_inv in Hp as [(ok & w4 & H4 & Hp) | (e & H4 & ->)].
  - apply all_valid_primary in H4 as (t1 & H4 & Hcase). rewrite H03 in H4.
    destruct ok.
    + destruct Hcase as [[_ (e & [=])] | [[_ [=]] | (tv & -> & Hsec & Htv)]].
      rewrite (Htv eq_refl) in *.
      apply save_block_prefix in Hp as (t2 & H5 & Hinfo).
      eexists. split; [rewrite H5, H4, <- app_assoc; reflexivity|].
      right. right.
      exists fc, (store w1), form, (store w2), forms, (store w3), (store w4), t2.
      auto.
    + apply render_events in Hp as (tr & H5 & Htr).
      assert (Hrender : (tr = [] \/ tr = [EvRender]) /\
                        match r with
                        | Ok resp => exists body, resp = Rendered body
                        | Raise _ => True
                        end).
      { destruct Htr as [[-> (e & ->)] | [-> Hr]]; auto. }
      destruct Hrender as [Htr' Hr].
      exists (t1 ++ tr). split; [rewrite H5, H4, <- app_assoc; reflexivity|].
      right. left.
      destruct Hcase as [[_ (e & [=])] | [[-> _] | (tv & -> & Hsec & _)]].
      * exists [], tr. split; [left; auto|]. split; [constructor|]. auto.
      * exists tv, tr. split; [right; reflexivity|]. auto.
  - apply all_valid_primary in H4 as (t1 & H4 & Hcase). rewrite H03 in H4.
    exists t1. split; [exact H4|].
    destruct Hcase as [[-> _] | [[_ [=]] | (tv & -> & Hsec & _)]].
    + left. eauto.
    + right. left. exists tv, []. rewrite app_nil_r.
      split; [right; reflexivity|]. auto.
Qed.

(** X18: a GET makes no call on the forms but their construction: it
    validates nothing and saves nothing, and what it returns is what
    [render_to_response] returned. *)
Theorem get_only_renders w r w' t :
  get w = (r, w') ->
  trace w' = trace w ++ t ->
  t = [] /\ (exists e, r = Raise e) \/
  t = [EvRender] /\
  match r with Ok resp => exists body, resp = Rendered body | Raise _ => True end.
Proof.
  intros Hg Ht. unfold MultipleFormsViews.get in Hg.
  apply render_events in Hg as (t0 & Ht0 & Hcase).
  assert (t = t0) as -> by (rewrite Ht in Ht0; apply app_inv_head in Ht0; exact Ht0).
  exact Hcase.
Qed.

(** X19: when the primary form is found invalid the secondary forms are
    not validated at all: the only calls of the POST are that one
    [is_valid()] and the rendering. *)
Theorem invalid_primary_skips_secondary w r w' t :
  post w = (r, w') ->
  trace w' = trace w ++ t ->
  In (EvIsValid Primary false) t ->
  t = [EvIsValid Primary false] \/ t = [EvIsValid Primary false; EvRender].
Proof.
  intros Hp Ht Hin. apply post_cases in Hp as (t0 & Ht0 & Hcases).
  assert (t = t0) as -> by (rewrite Ht in Ht0; apply app_inv_head in Ht0; exact Ht0).
  destruct Hcases as [[-> _] | [(tv & tr & Hshape & Hsec & Htr & _) | Hsaves]].
  - destruct Hin.
  - destruct Hshape as [[-> _] | ->].
    + destruct Htr as [-> | ->]; auto.
    + exfalso. destruct Hin as [[=] | Hin].
      apply in_app_or in Hin as [Hin | Hin].
      * rewrite Forall_forall in Hsec. apply list_elem_of_In, Hsec in Hin.
        destruct Hin as (k & b & [=]).
      * destruct Htr as [-> | ->]; [destruct Hin|].
        destruct Hin as [[=] | []].
  - exfalso.
    destruct Hsaves as (fc & s1 & form & s2 & forms & s3 & sv & t2 & _ & _ & _ & -> & Ht2).
    apply in_app_or in Hin as [[[=] | Hin] | Hin].
    + apply in_map_iff in Hin as (kf & [=] & _).
    + assert (Hall : forall new_obj, ~ In (EvIsValid Primary false) (saves_of new_obj forms)).
      { intros new_obj Hin'. cbn in Hin'.
        destruct Hin' as [Heq | [Heq | Hin']]; [discriminate Heq..|].
        apply in_app_or in Hin'. destruct Hin' as [Hin' | Hin'].
        - apply in_map_iff in Hin' as (kf & Heq & _). discriminate Heq.
        - destruct Hin' as [Heq | []]. discriminate Heq. }
      destruct Ht2 as [[-> _] | (new_obj & sb & r1 & sc & _ & _ & _ & [k Hk] & _)].
      * destruct Hin as [[=] | []].
      * apply (Hall new_obj). rewrite Hk. apply in_or_app. left. exact Hin.
Qed.

(** X20: whatever the outcome of a POST, its saves come in the order
    primary form (deferred), primary object, secondary forms in the order
    of the mapping, [save_m2m], every one after all validations; when a
    save raises, the POST stops there and the calls made before it stand:
    nothing undoes them. *)
Theorem saves_in_order_until_failure w r w' t :
  post w = (r, w') ->
  trace w' = trace w ++ t ->
  existsb is_save t = true ->
  exists form_class s1 form s2 forms s3 t2,
    get_form_class (store w) = (Ok form_class, s1) /\
    get_form form_class s1 = (Ok form, s2) /\
    get_forms s2 = (Ok forms, s3) /\
    t = (EvIsValid Primary true
           :: map (fun kf => EvIsValid (Secondary (fst kf)) true) forms) ++ t2 /\
    (t2 = [EvSave Primary false] \/
     exists new_obj,
       [EvSave Primary false; EvModelSave new_obj] `prefix_of` t2 /\
       t2 `prefix_of` saves_of new_obj forms).
Proof.
  intros Hp Ht Hsave. apply post_cases in Hp as (t0 & Ht0 & Hcases).
  assert (t = t0) as -> by (rewrite Ht in Ht0; apply app_inv_head in Ht0; exact Ht0).
  destruct Hcases as [[-> _] | [(tv & tr & Hshape & Hsec & Htr & _) | Hsaves]].
  - discriminate Hsave.
  - exfalso.
    assert (Hnone : existsb is_save (tv ++ tr) = false).
    { rewrite existsb_app. apply orb_false_iff. split.
      - apply existsb_save_none. eapply Forall_impl; [exact Hsec|].
        intros ev (k & b & ->). reflexivity.
      - destruct Htr as [-> | ->]; reflexivity. }
    destruct Hshape as [[-> ->] | ->]; cbn in Hsave; rewrite ?Hnone in Hsave;
      [|discriminate Hsave].
    cbn in Hnone. rewrite Hnone in Hsave. discriminate Hsave.
  - destruct Hsaves as (fc & s1 & form & s2 & forms & s3 & sv & t2 & Hfc & Hform & Hforms & -> & Ht2).
    exists fc, s1, form, s2, forms, s3, t2.
    repeat (split; [assumption|]). split; [reflexivity|].
    destruct Ht2 as [[-> _] | (new_obj & sb & r1 & sc & _ & _ & Hpre1 & Hpre2 & _)];
      [left; reflexivity | right; eauto].
Qed.

(** X21: in a POST that ends in the redirect, the primary object is saved
    while [self.new_object] already is that object: [Model.save] runs in
    the state the deferred form save left, with [new_object] set to the
    object that save returned. *)
Theorem primary_saved_as_new_object w url w' :
  post w = (Ok (HttpResponseRedirect url), w') ->
  exists form_class s1 form s2 sv new_obj sb sc,
    get_form_class (store w) = (Ok form_class, s1) /\
    get_form form_class s1 = (Ok form, s2) /\
    form_save form false sv = (Ok new_obj, sb) /\
    obj_save new_obj (set_new_object new_obj sb) = (Ok tt, sc) /\
    new_object (set_new_object new_obj sb) = Has new_obj.
Proof.
  intros Hp. apply post_cases in Hp as (t0 & Ht0 & Hcases).
  destruct Hcases as [[_ (e & [=])] | [(tv & tr & _ & _ & _ & (body & [=])) | Hsaves]].
  destruct Hsaves as (fc & s1 & form & s2 & forms & s3 & sv & t2 & Hfc & Hform & _ & _ & Ht2).
  destruct Ht2 as [[_ (e & [=])] | (new_obj & sb & r1 & sc & Hsave & Hos & _ & _ & Hr)].
  destruct Hr as (-> & _). exists fc, s1, form, s2, sv, new_obj, sb, sc. auto.
Qed.

(** X22: on a view that does not override [get_forms], once the primary
    form is constructed both GET and POST end in [ImproperlyConfigured],
    without a validation, a save or a rendering. *)
Theorem views_without_get_forms w form_class s1 form s2 :
  get_form_class (store w) = (Ok form_class, s1) ->
  get_form form_class s1 = (Ok form, s2) ->
  ProcessMultipleForms.post get_form_class get_form MultipleFormsViews.get_forms
    super_get_context_data render_to_response get_success_url is_valid
    form_save save_m2m obj_save w
  = (Raise ImproperlyConfigured, World (trace w) (heap w) s2) /\
  MultipleFormsViews.get (Url:=Url) get_form_class get_form
    MultipleFormsViews.get_forms super_get_context_data render_to_response w
  = (Raise ImproperlyConfigured, World (trace w) (heap w) s2).
Proof.
  intros Hfc Hform.
  assert (H1 : lift (Ev:=event Obj) get_form_class w
               = (Ok form_class, World (trace w) (heap w) s1))
    by (unfold lift; rewrite Hfc; reflexivity).
  assert (H2 : lift (Ev:=event Obj) (get_form form_class) (World (trace w) (heap w) s1)
               = (Ok form, World (trace w) (heap w) s2))
    by (unfold lift; cbn; rewrite Hform; reflexivity).
  split.
  - unfold ProcessMultipleForms.post.
    rewrite (bind_ok _ _ _ _ _ H1), (bind_ok _ _ _ _ _ H2). reflexivity.
  - unfold MultipleFormsViews.get, ProcessMultipleForms.get_context_data.
    apply bind_raise.
    rewrite (bind_ok _ _ _ _ _ H1), (bind_ok _ _ _ _ _ H2). reflexivity.
Qed.

End MultipleFormsMore.

(** ** [MultipleFormsUpdateView] *)

Section UpdateViewMore.
Import ProcessMultipleForms MultipleFormsViews.
Context {FormClass Form Obj Url Ctx Body H : Type}.

Abbreviation update_view := (@ProcessMultipleForms.view Obj (@update_host Obj H)).

Variable get_object : M update_view Obj.
Variable get_form_class : M update_view FormClass.
Variable get_form : FormClass -> M update_view Form.
Variable get_forms : M update_view (list (string * Form)).
Variable super_get_context_data : M update_view Ctx.
Variable render_to_response : @ProcessMultipleForms.context Form Ctx -> M update_view Body.
Variable get_success_url : M update_view Url.
Variable is_valid : Form -> M update_view bool.
Variable form_save : Form -> bool -> M update_view Obj.
Variable save_m2m : Form -> M update_view unit.
Variable obj_save : Obj -> M update_view unit.

Abbreviation update_post :=
  (update_post get_object get_form_class get_form get_forms
     super_get_context_data render_to_response get_success_url is_valid
     form_save save_m2m obj_save).

(** X23: a POST on the update view that makes any call on a form has
    looked the object up first and has constructed the forms with
    [self.object] set to it; a failed lookup ends the POST before any form
    exists. *)
Theorem update_post_resolves_object_first w r w' :
  update_post w = (r, w') ->
  trace w' <> trace w ->
  exists obj s1 form_class s2 form s3 forms s4,
    get_object (store w) = (Ok obj, s1) /\
    object (host (set_object obj s1)) = Has obj /\
    get_form_class (set_object obj s1) = (Ok form_class, s2) /\
    get_form form_class s2 = (Ok form, s3) /\
    get_forms s3 = (Ok forms, s4).
Proof.
  unfold MultipleFormsViews.update_post. intros Hu Hne.
  apply bind_inv in Hu as [(obj & w1 & H1 & Hu) | (e & H1 & _)].
  2:{ apply lift_inv in H1 as (_ & Ht & _). contradiction. }
  apply lift_inv in H1 as (Hobj & Ht1 & _).
  apply bind_inv in Hu as [([] & w2 & H2 & Hu) | (e & H2 & _)].
  2:{ apply lift_inv in H2 as ([=] & _). }
  apply lift_inv in H2 as (Hset & Ht2 & _). injection Hset as Hset.
  unfold post in Hu.
  apply bind_inv in Hu as [(fc & w3 & H3 & Hu) | (e & H3 & _)].
  2:{ apply lift_inv in H3 as (_ & Ht3 & _). congruence. }
  apply lift_inv in H3 as (Hfc & Ht3 & _).
  apply bind_inv in Hu as [(form & w4 & H4 & Hu) | (e & H4 & _)].
  2:{ apply lift_inv in H4 as (_ & Ht4 & _). congruence. }
  apply lift_inv in H4 as (Hform & Ht4 & _).
  apply bind_inv in Hu as [(forms & w5 & H5 & Hu) | (e & H5 & _)].
  2:{ apply lift_inv in H5 as (_ & Ht5 & _). congruence. }
  apply lift_inv in H5 as (Hforms & _ & _).
  exists obj, (store w1), fc, (store w3), form, (store w4), forms, (store w5).
  rewrite <- Hset in Hfc. split; [exact Hobj|]. split; [reflexivity|]. auto.
Qed.

End UpdateViewMore.

(** A GET only renders. *)
Lemma get_only_renders_witness :
  exists body,
    ToyViews.toy_get (true, 1) [("child", (false, 2))] Toy.fresh_view
    = (Ok (ProcessMultipleForms.Rendered body),
       World [ProcessMultipleForms.EvRender] ∅ (ProcessMultipleForms.View Missing [])).
Proof.
  destruct (ToyViews.toy_get (true, 1) [("child", (false, 2))] Toy.fresh_view)
    as [r w'] eqn:Hrun.
  pose proof (get_only_renders _ _ _ _ _ _ r w' [ProcessMultipleForms.EvRender] Hrun)
    as Hspec.
  vm_compute in Hrun. injection Hrun as <- <-.
  destruct (Hspec eq_refl) as [[[=] _] | [_ [body Hbody]]].
  exists body. rewrite <- Hbody. reflexivity.
Defined.

(** With the primary form invalid the secondary form is not asked. *)
Lemma invalid_primary_skips_secondary_witness :
  exists r,
    Toy.toy_post (false, 1) [("child", (false, 2))] Toy.fresh_view
    = (r, World [ ProcessMultipleForms.EvIsValid ProcessMultipleForms.Primary false;
                  ProcessMultipleForms.EvRender ] ∅
            (ProcessMultipleForms.View Missing [])).
Proof.
  destruct (Toy.toy_post (false, 1) [("child", (false, 2))] Toy.fresh_view)
    as [r w'] eqn:Hrun.
  pose proof (fun t => invalid_primary_skips_secondary _ _ _ _ _ _ _ _ _ _ _ r w' t Hrun)
    as Hspec.
  vm_compute in Hrun. injection Hrun as <- <-.
  destruct (Hspec _ eq_refl (or_introl eq_refl)) as [[=] | Ht].
  eexists. reflexivity.
Defined.

(** The save of the object 3 fails: the primary object 1 and the object 2
    have been written and stay written, and [save_m2m] is not reached. *)
Lemma saves_in_order_until_failure_witness :
  let secondary := [("child", (true, 2)); ("toy", (true, 3)); ("zoo", (true, 4))] in
  exists t,
    ToyViews.failing_post (true, 1) secondary Toy.fresh_view
    = (Raise (HostError 500),
       World t ∅ (ProcessMultipleForms.View (Has 1) [1; 2])) /\
    exists t2,
      t = [ ProcessMultipleForms.EvIsValid ProcessMultipleForms.Primary true;
            ProcessMultipleForms.EvIsValid (ProcessMultipleForms.Secondary "child") true;
            ProcessMultipleForms.EvIsValid (ProcessMultipleForms.Secondary "toy") true;
            ProcessMultipleForms.EvIsValid (ProcessMultipleForms.Secondary "zoo") true ]
          ++ t2 /\
      ~ In ProcessMultipleForms.EvSaveM2M t2.
Proof.
  intros secondary.
  destruct (ToyViews.failing_post (true, 1) secondary Toy.fresh_view)
    as [r w'] eqn:Hrun.
  pose proof (fun t => saves_in_order_until_failure _ _ _ _ _ _ _ _ _ _ _ r w' t Hrun)
    as Hspec.
  vm_compute in Hrun. injection Hrun as <- <-.
  eexists. split; [reflexivity|].
  destruct (Hspec _ eq_refl eq_refl)
    as (fc & s1 & form & s2 & forms & s3 & t2 & _ & _ & Hforms & Ht & _).
  injection Hforms as <- _. cbn in Ht.
  exists t2. split.
  - exact Ht.
  - injection Ht as <-. intros Hin. cbn in Hin.
    repeat (destruct Hin as [Hin | Hin]; [discriminate Hin|]). exact Hin.
Defined.

(** The primary object 1 is saved with [new_object] already set to 1. *)
Lemma primary_saved_as_new_object_witness :
  exists w' sv sb sc,
    Toy.toy_post (true, 1) [("child", (true, 2))] Toy.fresh_view
    = (Ok (ProcessMultipleForms.HttpResponseRedirect "/done"), w') /\
    Toy.toy_form_save (true, 1) false sv = (Ok 1, sb) /\
    Toy.persist 1 (ProcessMultipleForms.set_new_object 1 sb) = (Ok tt, sc).
Proof.
  destruct (Toy.toy_post (true, 1) [("child", (true, 2))] Toy.fresh_view)
    as [[[url|body]|e] w'] eqn:Hrun;
    [|vm_compute in Hrun; discriminate Hrun..].
  destruct (primary_saved_as_new_object _ _ _ _ _ _ _ _ _ _ _ _ _ Hrun)
    as (fc & s1 & form & s2 & sv & new_obj & sb & sc & _ & Hform & Hsave & Hos & _).
  injection Hform as <- _.
  assert (new_obj = 1) as -> by (cbn in Hsave; injection Hsave as <- _; reflexivity).
  assert (url = "/done") as ->
    by (vm_compute in Hrun; injection Hrun as <- _; reflexivity).
  exists w', sv, sb, sc. split; [reflexivity|]. auto.
Defined.

Lemma views_without_get_forms_witness :
  ToyViews.abstract_post (true, 1) Toy.fresh_view
  = (Raise ImproperlyConfigured, Toy.fresh_view).
Proof.
  apply (views_without_get_forms (Url:=string) (ret tt) (fun _ => ret (true, 1))
           (ret tt) (fun ctx => ret ctx) (ret "/done") (fun f => ret (fst f))
           Toy.toy_form_save (fun _ => ret tt) Toy.persist
           Toy.fresh_view tt (store Toy.fresh_view) (true, 1) (store Toy.fresh_view));
    reflexivity.
Defined.

(** The object 7 is looked up and stored before the forms are made. *)
Lemma update_post_resolves_object_first_witness :
  exists r w' (s1 : ToyViews.update_view),
    ToyViews.toy_update_post (ret 7) (true, 1) [("child", (true, 2))]
      ToyViews.fresh_update_view = (r, w') /\
    MultipleFormsViews.object
      (ProcessMultipleForms.host (MultipleFormsViews.set_object 7 s1)) = Has 7.
Proof.
  destruct (ToyViews.toy_update_post (ret 7) (true, 1) [("child", (true, 2))]
              ToyViews.fresh_update_view) as [r w'] eqn:Hrun.
  pose proof (update_post_resolves_object_first _ _ _ _ _ _ _ _ _ _ _ _ r w' Hrun)
    as Hspec.
  vm_compute in Hrun. injection Hrun as <- <-.
  destruct Hspec as (obj & s1 & fc & s2 & form & s3 & forms & s4 & Hobj & Hset & _).
  - discriminate.
  - injection Hobj as <- _. eexists _, _, s1. split; [reflexivity | exact Hset].
Defined.

(** ** [BoundCreateView.get_form_class] *)

Section BoundCreateViewFormMore.
Import BoundForm BoundCreateViewForm.
Context {Obj Args FormState H : Type}.

Abbreviation view := (@BoundCreateViewForm.view Obj H).

Context `{!Host view Obj Args FormState}.

Variable model : model_class.
Variable bound_field : string.
Variable form_class : option (base_form view Obj Args FormState).
Variable get_object : M view Obj.

Abbreviation get_form_class :=
  (get_form_class model bound_field form_class get_object).

(** X24: [get_form_class] looks the parent up and keeps it in
    [self.object], but the form class it returns is bound to the lookup
    itself: each [save] of a form looks the parent up again, after the
    superclass's deferred save, and it is the object found then that
    becomes the parent of the saved instance. *)
Theorem get_form_class_binds_lookup w F w' self commit w1 obj w2 :
  get_form_class w = (Ok F, w') ->
  save F self commit w1 = (Ok obj, w2) ->
  (exists o s1,
     get_object (store w) = (Ok o, s1) /\
     w' = World (trace w) (heap w) (set_object (Has o) s1)) /\
  bound_field ∈ meta_exclude F /\
  exists obj0 s2 o' s3,
    bf_save (superclass F) self false (store w1) = (Ok obj0, s2) /\
    get_object s2 = (Ok o', s3) /\
    inst_attrs obj !! bound_field = Some o'.
Proof.
  unfold BoundCreateViewForm.get_form_class. intros Hg Hs.
  apply bind_inv_ok in Hg as (o & wa & Hlook & Hg).
  apply bind_inv_ok in Hg as ([] & wb & Hset & Hg).
  pose proof (bound_object_form_pure _ _ _ _ _ _ _ Hg) as ->.
  apply bound_object_form_inv in Hg as (Hfield & Hinit & _ & Hex).
  split; [|split; [exact Hex|]].
  - exists o, (store wa). apply lift_inv in Hlook as (Hlook & Hta & Hha).
    split; [exact Hlook|].
    unfold lift, modify in Hset. injection Hset as <-.
    rewrite Hta, Hha. reflexivity.
  - apply save_inv in Hs as [(e & _ & He) | (obj0 & wc & Hbase & Hrest)];
      [discriminate He|].
    destruct Hrest as [(e & _ & He) | (v & wd & Hres & Hattrs)]; [discriminate He|].
    rewrite Hinit in Hres. cbn in Hres. apply call_inv in Hres as (Hp & _ & _).
    apply lift_inv in Hbase as (Hbase & _ & _).
    exists obj0, (store wc), v, (store wd). split; [exact Hbase|].
    split; [exact Hp|]. rewrite (Hattrs obj eq_refl), Hfield.
    apply lookup_insert_eq.
Qed.

(** When the lookup fails (no such parent), [get_form_class] fails with
    the same exception; no form class is made and [self.object] is not
    set. *)
Lemma get_form_class_lookup_failure w e s1 :
  get_object (store w) = (Raise e, s1) ->
  get_form_class w = (Raise e, World (trace w) (heap w) s1).
Proof.
  intros Hlook. unfold BoundCreateViewForm.get_form_class. apply bind_raise.
  unfold lift. rewrite Hlook. reflexivity.
Qed.

End BoundCreateViewFormMore.

(** The first lookup answers 0, which goes to [self.object]; the lookup at
    save time answers 1, which becomes the parent. *)
Lemma get_form_class_binds_lookup_witness :
  exists F w' obj w2,
    ToyViews.counting_get_form_class ToyViews.counting_world = (Ok F, w') /\
    BoundCreateViewForm.object (store w') = Has 0 /\
    ToyViews.counting_save F tt false w' = (Ok obj, w2) /\
    inst_attrs obj !! "parent" = Some 1.
Proof.
  destruct (ToyViews.counting_get_form_class ToyViews.counting_world)
    as [[F|e] w'] eqn:Hclass; [|vm_compute in Hclass; discriminate Hclass].
  destruct (ToyViews.counting_save F tt false w') as [[obj|e] w2] eqn:Hsave.
  - destruct (get_form_class_binds_lookup _ _ _ _ _ _ _ _ _ _ _ _ Hclass Hsave)
      as ((o & s1 & Hlook & Hw') & _ & (obj0 & s2 & o' & s3 & Hbase & Hlook' & Hattr)).
    exists F, w', obj, w2.
    vm_compute in Hlook. injection Hlook as <- <-.
    split; [reflexivity|]. split; [rewrite Hw'; reflexivity|].
    split; [exact Hsave|].
    assert (s2 = store w') as ->.
    { vm_compute in Hclass. injection Hclass as <- _. cbn in Hbase.
      injection Hbase as _ <-. reflexivity. }
    rewrite Hw' in Hlook'. vm_compute in Hlook'. injection Hlook' as <- _.
    exact Hattr.
  - vm_compute in Hclass. injection Hclass as <- <-.
    vm_compute in Hsave. discriminate Hsave.
Defined.

Lemma get_form_class_lookup_failure_witness :
  @BoundCreateViewForm.get_form_class nat unit unit nat ToyViews.counting_host
    Toy.child "parent" None (raise (HostError 404)) ToyViews.counting_world
  = (Raise (HostError 404), ToyViews.counting_world).
Proof.
  apply (@get_form_class_lookup_failure nat unit unit nat ToyViews.counting_host
           Toy.child "parent" None (raise (HostError 404)) ToyViews.counting_world
           (HostError 404) (store ToyViews.counting_world)).
  reflexivity.
Defined.
